(** * letsencrypt-marathon-lb: a shallow embedding of [app/cert.py]

    The script obtains certificates with the [lego] ACME client and
    publishes them to a marathon-lb application through the Marathon
    REST API.  Every function of [cert.py] is embedded below as a
    computation in a small state-and-exception monad over a [world]
    (process environment, file system, state of the Marathon platform,
    trace of the observable effects).  The collaborators the script talks
    to (Marathon, the [lego] program) are parameters of the development.

    Not modelled: [print] calls, the [auth] object handed to [requests],
    and the endless daily loops of the [__main__] block. *)

From Stdlib Require Import ZArith String Ascii List Lia.
From stdpp Require Import base strings gmap list.

Local Open Scope Z_scope.
Local Open Scope string_scope.
Local Open Scope list_scope.

(** ** Python strings *)

Module PyStr.

(** [s.startswith(p)] *)
Fixpoint startswith (p s : string) : bool :=
  match p, s with
  | EmptyString, _ => true
  | String _ _, EmptyString => false
  | String a p', String b s' => Ascii.eqb a b && startswith p' s'
  end.

(** [s.replace(a, b)] for one-character [a] and [b]. *)
Fixpoint replace (a b : ascii) (s : string) : string :=
  match s with
  | EmptyString => EmptyString
  | String c s' => String (if Ascii.eqb c a then b else c) (replace a b s')
  end.

(** [s.split(sep)] for a one-character separator: the result always has
    one more entry than [s] has separators, so [""] splits to [[""]]. *)
Fixpoint split (sep : ascii) (s : string) : list string :=
  match s with
  | EmptyString => [EmptyString]
  | String c s' =>
      if Ascii.eqb c sep then EmptyString :: split sep s'
      else match split sep s' with
           | [] => [String c EmptyString]
           | h :: t => String c h :: t
           end
  end.

(** Carriage return and line feed. *)
Definition CR : ascii := "013"%char.
Definition LF : ascii := "010"%char.

(** What reading a file opened in text mode makes of its content
    (universal newlines): a carriage return followed by a line feed
    becomes the line feed alone, and any other carriage return becomes
    a line feed. *)
Fixpoint universal_newlines (s : string) : string :=
  match s with
  | EmptyString => EmptyString
  | String c rest =>
      if Ascii.eqb c CR then
        match rest with
        | EmptyString => String LF EmptyString
        | String c' _ =>
            if Ascii.eqb c' LF then universal_newlines rest
            else String LF (universal_newlines rest)
        end
      else String c (universal_newlines rest)
  end.

(** ["%s" % v]: [None] is formatted as the text [None]. *)
Definition format (v : option string) : string :=
  match v with Some s => s | None => "None" end.

End PyStr.

(** ** Constants of the module *)

Definition ENV_MARATHON_URL := "MARATHON_URL".
Definition DEFAULT_MARATHON_URL := "https://marathon.mesos:8443/".
Definition ENV_MARATHON_APP_ID := "MARATHON_APP_ID".
Definition HAPROXY_SSL_CERT := "HAPROXY_SSL_CERT".
Definition ENV_MARATHON_LB_ID := "MARATHON_LB_ID".
Definition ENV_LETSENCRYPT_EMAIL := "LETSENCRYPT_EMAIL".
Definition ENV_LETSENCRYPT_URL := "LETSENCRYPT_URL".
Definition ENV_VERIFICATION_METHOD := "LETSENCRYPT_VERIFICATION_METHOD".
Definition ENV_DOMAINS := "DOMAINS".
Definition ENV_DNSPROVIDER := "DNSPROVIDER".
Definition DEFAULT_LETSENCRYPT_URL :=
  "https://acme-staging.api.letsencrypt.org/directory".

Definition CERTIFICATES_DIR := ".lego/certificates/".
Definition DOMAINS_FILE := ".lego/current_domains".

Definition LEGO_ARGS_HTTP : list string :=
  ["--http"; ":8080"; "--exclude"; "tls-sni-01"].

Definition LEGO_ARGS_DNS : list string :=
  ["--dns-resolvers"; "8.8.8.8:53"; "--exclude"; "http-01"].

(** [DEFAULT_LEGO_ARGS] is computed from [os.environ] when the module is
    loaded; the script never changes its environment, so it is a function
    of the environment here.  The e-mail entry is [None] when
    [LETSENCRYPT_EMAIL] is not set. *)
Definition DEFAULT_LEGO_ARGS (environ : gmap string string)
  : list (option string) :=
  [ Some "./lego";
    Some "--server";
    Some (default DEFAULT_LETSENCRYPT_URL (environ !! ENV_LETSENCRYPT_URL));
    Some "--email";
    environ !! ENV_LETSENCRYPT_EMAIL;
    Some "--accept-tos";
    Some "--pem" ].

(** The messages of the exceptions the script raises itself. *)
Definition MSG_GET_FAILED := "Could not get app details from marathon".
Definition MSG_UPDATE_FAILED :=
  "Could not update app. See response text for error message.".
Definition MSG_NO_DEPLOYMENT_ID :=
  "Could not update app. Marathon did not return deployment id.  See response data for error message.".
Definition MSG_TIMEOUT := "Failed to update app due to timeout in deployment.".
Definition MSG_UNKNOWN_METHOD := "Unknown verification method: ".
Definition MSG_LEGO_FAILED :=
  "Obtaining certificates failed. Check lego output for error messages.".

(** ** Data exchanged with Marathon *)

(** A value of the [env] object of an app definition: a plain string or a
    reference to a secret. *)
Inductive env_value :=
| EnvStr (s : string)
| EnvSecret (name : string).

#[global] Instance env_value_eq_dec : EqDecision env_value.
Proof. solve_decision. Defined.

(** [data["app"]] of [GET /v2/apps/{id}]; [secrets] may be missing. *)
Record app_definition := {
  labels : gmap string string;
  env : gmap string env_value;
  secrets : option (gmap string string)
}.

Record app_response := {
  app_ok : bool;
  app_json : app_definition
}.

(** The body [dict(id=app_id, env=..., secrets=...)] of the PATCH. *)
Record patch_body := {
  body_id : option string;
  body_env : gmap string env_value;
  body_secrets : gmap string string
}.

Record patch_response := {
  patch_ok : bool;
  patch_json : gmap string string
}.

(** ** The collaborators *)

(** Marathon is a deterministic machine with a state of its own, which
    answers the three kinds of request the script sends; [lego] gets its
    argument vector and the file system and leaves an exit status and a
    file system.  [GET /v2/deployments] is answered by the list of the
    [id] members of the deployments in flight. *)
Record externals := {
  pstate : Type;
  marathon_get_app : string -> pstate -> app_response * pstate;
  marathon_patch_app : string -> patch_body -> pstate -> patch_response * pstate;
  marathon_get_deployments : string -> pstate -> list string * pstate;
  lego : list string -> gmap string string -> Z * gmap string string
}.

(** ** Effects *)

(** Which loop a [time.sleep] belongs to. *)
Inductive sleeper := DeploymentPoll | Backoff.

Inductive event :=
| EvGet (url : string)
| EvPatch (url : string) (body : patch_body)
| EvSleep (who : sleeper) (seconds : Z)
| EvRun (argv : list string) (returncode : Z)
| EvWrite (path content : string).

Inductive exn :=
| Exception (msg : string)
| KeyError (key : string)
| TypeError
| FileNotFoundError (path : string).

Inductive outcome (A : Type) :=
| Returned (a : A)
| Raised (e : exn)
| OutOfFuel.
Arguments Returned {A} a.
Arguments Raised {A} e.
Arguments OutOfFuel {A}.

Record world (X : externals) := World {
  environ : gmap string string;
  files : gmap string string;
  marathon : pstate X;
  trace : list event
}.
Arguments World {X}.
Arguments environ {X}.
Arguments files {X}.
Arguments marathon {X}.
Arguments trace {X}.

(** The file system resolves a path with repeated slashes to the same
    file as the path with single ones; files are keyed by the latter. *)
Fixpoint norm_path (s : string) : string :=
  match s with
  | EmptyString => EmptyString
  | String c rest =>
      match c, rest with
      | "/"%char, String "/"%char _ => norm_path rest
      | _, _ => String c (norm_path rest)
      end
  end.

Section Monad.

Context {X : externals}.

Definition M (A : Type) : Type := world X -> outcome A * world X.

Definition ret {A} (a : A) : M A := fun w => (Returned a, w).

Definition raise {A} (e : exn) : M A := fun w => (Raised e, w).

Definition out_of_fuel {A} : M A := fun w => (OutOfFuel, w).

Definition bind {A B} (m : M A) (k : A -> M B) : M B :=
  fun w =>
    match m w with
    | (Returned a, w') => k a w'
    | (Raised e, w') => (Raised e, w')
    | (OutOfFuel, w') => (OutOfFuel, w')
    end.

(** [try: m except Exception as ex: handler ex] *)
Definition try_except {A} (m : M A) (handler : exn -> M A) : M A :=
  fun w =>
    match m w with
    | (Raised ex, w') => handler ex w'
    | r => r
    end.

Definition emit (e : event) : M unit :=
  fun w => (Returned tt,
            World (environ w) (files w) (marathon w) (trace w ++ [e])).

(** [os.environ.get(name)] *)
Definition getenv (name : string) : M (option string) :=
  fun w => (Returned (environ w !! name), w).

(** [time.sleep(seconds)] *)
Definition sleep (who : sleeper) (seconds : Z) : M unit :=
  emit (EvSleep who seconds).

(** [os.path.exists(path)] *)
Definition path_exists (path : string) : M bool :=
  fun w => (Returned (bool_decide (is_Some (files w !! norm_path path))), w).

(** [open(path).read()]: the file is opened in text mode, so what is
    read is the content with its newlines translated. *)
Definition read_file (path : string) : M string :=
  fun w =>
    match files w !! norm_path path with
    | Some content => (Returned (PyStr.universal_newlines content), w)
    | None => (Raised (FileNotFoundError path), w)
    end.

(** [open(path, "w").write(content)]: on the POSIX system the script
    runs on, writing in text mode stores the text as it is. *)
Definition write_file (path content : string) : M unit :=
  fun w =>
    (Returned tt,
     World (environ w) (<[norm_path path := content]> (files w))
           (marathon w) (trace w ++ [EvWrite path content])).

(** [requests.get] on an app definition *)
Definition requests_get_app (url : string) : M app_response :=
  fun w =>
    let '(r, p) := marathon_get_app X url (marathon w) in
    (Returned r, World (environ w) (files w) p (trace w ++ [EvGet url])).

(** [requests.get] on the list of deployments, followed by [.json()] *)
Definition requests_get_deployments (url : string) : M (list string) :=
  fun w =>
    let '(r, p) := marathon_get_deployments X url (marathon w) in
    (Returned r, World (environ w) (files w) p (trace w ++ [EvGet url])).

(** [requests.patch] *)
Definition requests_patch (url : string) (body : patch_body)
  : M patch_response :=
  fun w =>
    let '(r, p) := marathon_patch_app X url body (marathon w) in
    (Returned r,
     World (environ w) (files w) p (trace w ++ [EvPatch url body])).

(** [subprocess.run(argv, ...)]: an argument that is [None] is a
    [TypeError] before anything is started. *)
Definition subprocess_run (argv : list (option string)) : M Z :=
  fun w =>
    match mapM id argv with
    | None => (Raised TypeError, w)
    | Some args =>
        let '(rc, fs) := lego X args (files w) in
        (Returned rc,
         World (environ w) fs (marathon w) (trace w ++ [EvRun args rc]))
    end.

End Monad.

Notation "'let*' x ':=' m 'in' k" := (bind m (fun x => k))
  (at level 10, x name, m at level 100, k at level 200).
Notation "m ';;' k" := (bind m (fun _ => k))
  (at level 100, k at level 200, right associativity).

(** ** The script *)

Section Script.

Context {X : externals}.
Implicit Types (w : world X).

(** [get_marathon_url] *)
Definition get_marathon_url : M (X:=X) string :=
  let* url := getenv ENV_MARATHON_URL in
  ret (default DEFAULT_MARATHON_URL url).

(** [get_marathon_app]: the app id comes from [os.environ.get] and is
    [None] when the variable is not set. *)
Definition get_marathon_app (app_id : option string)
  : M (X:=X) app_definition :=
  let* marathon_url := get_marathon_url in
  let* response :=
    requests_get_app (marathon_url +:+ "/v2/apps/" +:+ PyStr.format app_id) in
  if negb (app_ok response) then raise (Exception MSG_GET_FAILED)
  else ret (app_json response).

(** The loop of [update_marathon_app] that waits for the deployment;
    [fuel] bounds the number of iterations. *)
Fixpoint wait_for_deployment (fuel : nat) (deployment_id : string)
    (sum_wait_time : Z) : M (X:=X) unit :=
  match fuel with
  | O => out_of_fuel
  | S fuel' =>
      sleep DeploymentPoll 5;;
      let sum_wait_time := sum_wait_time + 5 in
      let* marathon_url := get_marathon_url in
      let* deployments :=
        requests_get_deployments (marathon_url +:+ "/v2/deployments") in
      let deployment_exists :=
        existsb (String.eqb deployment_id) deployments in
      if sum_wait_time >? 60 * 5 then raise (Exception MSG_TIMEOUT)
      else if deployment_exists
           then wait_for_deployment fuel' deployment_id sum_wait_time
           else ret tt
  end.

(** [update_marathon_app(app_id, env=..., secrets=...)], the only way
    the function is called. *)
Definition update_marathon_app (fuel : nat) (app_id : option string)
    (env : gmap string env_value) (secrets : gmap string string)
  : M (X:=X) unit :=
  let data := {| body_id := app_id; body_env := env;
                 body_secrets := secrets |} in
  let* marathon_url := get_marathon_url in
  let* response :=
    requests_patch (marathon_url +:+ "/v2/apps/" +:+ PyStr.format app_id)
                   data in
  if negb (patch_ok response) then raise (Exception MSG_UPDATE_FAILED)
  else
    let data := patch_json response in
    match data !! "deploymentId" with
    | None => raise (Exception MSG_NO_DEPLOYMENT_ID)
    | Some deployment_id => wait_for_deployment fuel deployment_id 0
    end.

(** [get_domains]: the result is [None] when, in dns mode, [DOMAINS] is
    not set. *)
Definition get_domains : M (X:=X) (option string) :=
  let* app_id := getenv ENV_MARATHON_APP_ID in
  let* data := get_marathon_app app_id in
  let* verification_method := getenv ENV_VERIFICATION_METHOD in
  let verification_method := default "http" verification_method in
  if String.eqb verification_method "http" then
    match labels data !! "HAPROXY_0_VHOST" with
    | Some vhost => ret (Some vhost)
    | None => raise (KeyError "HAPROXY_0_VHOST")
    end
  else if String.eqb verification_method "dns" then
    getenv ENV_DOMAINS
  else raise (Exception (MSG_UNKNOWN_METHOD +:+ verification_method)).

(** [get_cert_filepath] *)
Definition get_cert_filepath (domain_name : string) : string :=
  let domain_name :=
    if PyStr.startswith "*" domain_name
    then PyStr.replace "*" "_" domain_name
    else domain_name in
  CERTIFICATES_DIR +:+ "/" +:+ domain_name +:+ ".pem".

(** [read_domains_from_last_time] *)
Definition read_domains_from_last_time : M (X:=X) string :=
  let* present := path_exists DOMAINS_FILE in
  if present then read_file DOMAINS_FILE else ret "".

(** [write_domains_to_file] *)
Definition write_domains_to_file (domains : string) : M (X:=X) unit :=
  write_file DOMAINS_FILE domains.

(** The last tokens of the [lego] command line. *)
Inductive mode := Renew | Run.

Definition mode_args (m : mode) : list string :=
  match m with
  | Renew => ["renew"; "--days"; "80"]
  | Run => ["run"]
  end.

(** The path whose existence [generate_letsencrypt_cert] tests. *)
Definition crt_filepath (first_domain : string) : string :=
  CERTIFICATES_DIR +:+ "/" +:+ first_domain +:+ ".crt".

(** [generate_letsencrypt_cert] *)
Definition generate_letsencrypt_cert (domains : string) : M (X:=X) string :=
  let* last_time := read_domains_from_last_time in
  let domains_changed := negb (String.eqb domains last_time) in
  let first_domain := hd "" (PyStr.split "," domains) in
  let args :=
    flat_map (fun domain => ["--domains"; domain]) (PyStr.split "," domains) in
  let* verification_method := getenv ENV_VERIFICATION_METHOD in
  let verification_method := default "http" verification_method in
  let* dnsprovider := getenv ENV_DNSPROVIDER in
  let args :=
    (if String.eqb verification_method "http" then args ++ LEGO_ARGS_HTTP
     else if String.eqb verification_method "dns"
          then args ++ ["--dns"; default "route53" dnsprovider] ++ LEGO_ARGS_DNS
          else args)%list in
  let* crt_exists := path_exists (crt_filepath first_domain) in
  let args :=
    (args ++ mode_args (if negb domains_changed && crt_exists
                        then Renew else Run))%list in
  let* result :=
    (fun w => subprocess_run (DEFAULT_LEGO_ARGS (environ w) ++ map Some args)%list w) in
  if negb (result =? 0)%Z then raise (Exception MSG_LEGO_FAILED)
  else
    write_domains_to_file domains;;
    ret first_domain.

(** [upload_cert_to_marathon_lb] *)
Definition upload_cert_to_marathon_lb (fuel : nat) (cert_filename : string)
  : M (X:=X) unit :=
  let* cert_data := read_file cert_filename in
  let* marathon_lb_id := getenv ENV_MARATHON_LB_ID in
  let* app_data := get_marathon_app marathon_lb_id in
  let env := env app_data in
  if bool_decide (default (EnvStr "") (env !! HAPROXY_SSL_CERT)
                  <> EnvStr cert_data)
  then
    let env := <[HAPROXY_SSL_CERT := EnvStr cert_data]> env in
    update_marathon_app fuel marathon_lb_id env
                        (default ∅ (secrets app_data))
  else ret tt.

(** [run_client]: concatenating [None] to the message is a [TypeError]. *)
Definition run_client (fuel : nat) : M (X:=X) unit :=
  let* domains := get_domains in
  match domains with
  | None => raise TypeError
  | Some domains =>
      let* domain_name := generate_letsencrypt_cert domains in
      let cert_file := get_cert_filepath domain_name in
      upload_cert_to_marathon_lb fuel cert_file
  end.

(** The loop of [run_client_with_backoff]; [attempts] bounds the number
    of iterations. *)
Fixpoint backoff_loop (attempts fuel : nat)
    (backoff_seconds sum_wait_time : Z) : M (X:=X) unit :=
  match attempts with
  | O => out_of_fuel
  | S attempts' =>
      try_except (run_client fuel)
        (fun ex =>
           if sum_wait_time >=? 60 * 60 then raise ex
           else
             let sum_wait_time := sum_wait_time + backoff_seconds in
             sleep Backoff backoff_seconds;;
             let backoff_seconds := backoff_seconds * 2 in
             backoff_loop attempts' fuel backoff_seconds sum_wait_time)
  end.

(** [run_client_with_backoff] *)
Definition run_client_with_backoff (attempts fuel : nat) : M (X:=X) unit :=
  backoff_loop attempts fuel 30 0.

End Script.

(** ** A scripted Marathon

    A stand-in for the platform on which the model can be run: it keeps
    the app definitions by URL, answers every accepted PATCH with a fixed
    reply and stores the patched [env] and [secrets], and answers the
    polls of the deployment list from a script.  [lego] exits with a
    fixed status and leaves the file system as it is. *)

Module Scripted.

Record state := {
  apps : gmap string app_definition;
  patch_reply : patch_response;
  polls : list (list string)
}.

Definition no_app : app_definition :=
  {| labels := ∅; env := ∅; secrets := None |}.

Definition get_app (url : string) (s : state) : app_response * state :=
  match apps s !! url with
  | Some a => ({| app_ok := true; app_json := a |}, s)
  | None => ({| app_ok := false; app_json := no_app |}, s)
  end.

Definition patch_app (url : string) (b : patch_body) (s : state)
  : patch_response * state :=
  match apps s !! url with
  | Some a =>
      if patch_ok (patch_reply s)
      then (patch_reply s,
            {| apps := <[url := {| labels := labels a;
                                   env := body_env b;
                                   secrets := Some (body_secrets b) |}]>
                         (apps s);
               patch_reply := patch_reply s;
               polls := polls s |})
      else (patch_reply s, s)
  | None => ({| patch_ok := false; patch_json := ∅ |}, s)
  end.

Definition get_deployments (url : string) (s : state)
  : list string * state :=
  match polls s with
  | [] => ([], s)
  | p :: ps =>
      (p, {| apps := apps s; patch_reply := patch_reply s; polls := ps |})
  end.

Definition platform (returncode : Z) : externals :=
  {| pstate := state;
     marathon_get_app := get_app;
     marathon_patch_app := patch_app;
     marathon_get_deployments := get_deployments;
     lego := fun _ fs => (returncode, fs) |}.

(** A reply that accepts the PATCH and names the deployment. *)
Definition accepted (deployment_id : string) : patch_response :=
  {| patch_ok := true; patch_json := {[ "deploymentId" := deployment_id ]} |}.

(** A reply that accepts the PATCH and names no deployment. *)
Definition accepted_blind : patch_response :=
  {| patch_ok := true; patch_json := {[ "version" := "2018-01-01" ]} |}.

(** A Marathon that knows no app: every request fails. *)
Definition down : state :=
  {| apps := ∅; patch_reply := accepted "d"; polls := [] |}.

End Scripted.

(** ** Observations

    What the claims about the script are stated with: the URLs it
    requests, the answers Marathon gives to the next request, the worlds
    its steps leave, and summaries of its decisions. *)

(** A Marathon that keeps what it is given: [stored p url] is the app
    definition kept under [url] in state [p].  A GET that succeeds
    answers with the definition kept and changes none; a PATCH that
    succeeds leaves the [env] of its body in the definition; a poll of
    the deployment list changes none. *)
Record faithful_store (X : externals)
    (stored : pstate X -> string -> option app_definition) : Prop := {
  get_keeps : forall url p,
    stored (snd (marathon_get_app X url p)) = stored p;
  get_reads : forall url p,
    app_ok (fst (marathon_get_app X url p)) = true ->
    stored p url = Some (app_json (fst (marathon_get_app X url p)));
  patch_stores : forall url b p,
    patch_ok (fst (marathon_patch_app X url b p)) = true ->
    exists a, stored (snd (marathon_patch_app X url b p)) url = Some a
              /\ env a = body_env b;
  poll_keeps : forall url p,
    stored (snd (marathon_get_deployments X url p)) = stored p
}.

(** The seconds slept in all between the polls of the deployment list. *)
Fixpoint waited (t : list event) : Z :=
  match t with
  | [] => 0
  | EvSleep DeploymentPoll seconds :: t' => seconds + waited t'
  | _ :: t' => waited t'
  end.

(** The seconds slept by the backoff loop, in order. *)
Fixpoint backoff_sleeps (t : list event) : list Z :=
  match t with
  | [] => []
  | EvSleep Backoff seconds :: t' => seconds :: backoff_sleeps t'
  | _ :: t' => backoff_sleeps t'
  end.

Definition total_backoff (t : list event) : Z :=
  foldr Z.add 0 (backoff_sleeps t).

(** The sleeps of the loop when every attempt fails, from the state
    [(backoff_seconds, sum_wait_time)] and with [attempts] iterations. *)
Fixpoint schedule (attempts : nat) (backoff_seconds sum_wait_time : Z)
  : list Z :=
  match attempts with
  | O => []
  | S attempts' =>
      if sum_wait_time >=? 60 * 60 then []
      else backoff_seconds
           :: schedule attempts' (backoff_seconds * 2)
                       (sum_wait_time + backoff_seconds)
  end.

Section Observations.

Context {X : externals}.
Implicit Types (w : world X).

(** The URLs of the requests. *)
Definition marathon_url w : string :=
  default DEFAULT_MARATHON_URL (environ w !! ENV_MARATHON_URL).

Definition app_url w (app_id : option string) : string :=
  marathon_url w +:+ "/v2/apps/" +:+ PyStr.format app_id.

Definition deployments_url w : string :=
  marathon_url w +:+ "/v2/deployments".

(** The answer of the next poll of the deployment list, whether it shows
    the deployment [id], and the world one iteration of the waiting loop
    leaves. *)
Definition poll_answer w : list string :=
  fst (marathon_get_deployments X (deployments_url w) (marathon w)).

Definition in_flight (id : string) w : bool :=
  existsb (String.eqb id) (poll_answer w).

Definition poll_once w : world X :=
  World (environ w) (files w)
        (snd (marathon_get_deployments X (deployments_url w) (marathon w)))
        (trace w ++ [EvSleep DeploymentPoll 5; EvGet (deployments_url w)]).

Fixpoint after_polls (n : nat) w : world X :=
  match n with
  | O => w
  | S n' => after_polls n' (poll_once w)
  end.

(** The world in which the waiting loop starts: the PATCH has been sent
    and answered. *)
Definition after_patch w (app_id : option string)
    (env : gmap string env_value) (secrets : gmap string string) : world X :=
  let body := {| body_id := app_id; body_env := env;
                 body_secrets := secrets |} in
  World (environ w) (files w)
        (snd (marathon_patch_app X (app_url w app_id) body (marathon w)))
        (trace w ++ [EvPatch (app_url w app_id) body]).

Definition patch_answer w (app_id : option string)
    (env : gmap string env_value) (secrets : gmap string string)
  : patch_response :=
  fst (marathon_patch_app X (app_url w app_id)
         {| body_id := app_id; body_env := env; body_secrets := secrets |}
         (marathon w)).

(** The app ids the script reads from its environment. *)
Definition lb_id w : option string := environ w !! ENV_MARATHON_LB_ID.

Definition own_app_id w : option string := environ w !! ENV_MARATHON_APP_ID.

(** The world after the GET of an app definition. *)
Definition after_get w (app_id : option string) : world X :=
  World (environ w) (files w)
        (snd (marathon_get_app X (app_url w app_id) (marathon w)))
        (trace w ++ [EvGet (app_url w app_id)]).

Definition get_answer w (app_id : option string) : app_response :=
  fst (marathon_get_app X (app_url w app_id) (marathon w)).

(** [os.environ.get(ENV_VERIFICATION_METHOD, "http")] *)
Definition verification_method w : string :=
  default "http" (environ w !! ENV_VERIFICATION_METHOD).

(** [domains.split(",")[0]] *)
Definition first_domain (domains : string) : string :=
  hd "" (PyStr.split "," domains).

(** The persisted DomainSet as [read_domains_from_last_time] reports it. *)
Definition last_domains w : string :=
  PyStr.universal_newlines (default "" (files w !! DOMAINS_FILE)).

(** The mode [generate_letsencrypt_cert] selects in world [w]:
    [not domains_changed and os.path.exists(...)]. *)
Definition issuance_mode w (domains : string) : mode :=
  if negb (negb (String.eqb domains (last_domains w)))
     && bool_decide (is_Some (files w !! norm_path
                                (crt_filepath (first_domain domains))))
  then Renew else Run.

(** The argument vector it hands to [subprocess.run]. *)
Definition lego_argv w (domains : string) : list (option string) :=
  DEFAULT_LEGO_ARGS (environ w)
  ++ map Some
       ((if String.eqb (verification_method w) "http"
         then flat_map (fun domain => ["--domains"; domain])
                       (PyStr.split "," domains) ++ LEGO_ARGS_HTTP
         else if String.eqb (verification_method w) "dns"
              then flat_map (fun domain => ["--domains"; domain])
                            (PyStr.split "," domains)
                   ++ ["--dns";
                       default "route53" (environ w !! ENV_DNSPROVIDER)]
                   ++ LEGO_ARGS_DNS
              else flat_map (fun domain => ["--domains"; domain])
                            (PyStr.split "," domains))
        ++ mode_args (issuance_mode w domains)).

(** The name under which the certificate of a domain is kept on disk:
    [get_cert_filepath] replaces the asterisk of a wildcard domain, and
    the [.crt] file is the sibling of the [.pem] file it names. *)
Definition stored_name (domain_name : string) : string :=
  if PyStr.startswith "*" domain_name
  then PyStr.replace "*" "_" domain_name
  else domain_name.

Definition stored_crt_filepath (domain_name : string) : string :=
  CERTIFICATES_DIR +:+ "/" +:+ stored_name domain_name +:+ ".crt".

(** The world [w] with the verification method set to [m]. *)
Definition with_method (m : string) w : world X :=
  World (<[ENV_VERIFICATION_METHOD := m]> (environ w)) (files w)
        (marathon w) (trace w).

(** Two runs that return or raise the same and leave the same files,
    the same Marathon and the same trace. *)
Definition same_run {A} (r1 r2 : outcome A * world X) : Prop :=
  fst r1 = fst r2 /\ files (snd r1) = files (snd r2) /\
  marathon (snd r1) = marathon (snd r2) /\ trace (snd r1) = trace (snd r2).

(** A computation that adds no sleep of the backoff loop to the trace. *)
Definition quiet {A} (m : M (X:=X) A) : Prop :=
  forall w, backoff_sleeps (trace (snd (m w))) = backoff_sleeps (trace w).

(** The world after [time.sleep] in the backoff loop. *)
Definition slept (seconds : Z) w : world X :=
  World (environ w) (files w) (marathon w)
        (trace w ++ [EvSleep Backoff seconds]).

(** The world in which attempt number [n + 1] of the backoff loop
    starts when the [n] attempts before it have raised: each of them is
    followed by the sleep of the loop, which is [backoff_seconds] at
    first and twice the one before after that. *)
Fixpoint attempt_world (fuel n : nat) (backoff_seconds : Z) w : world X :=
  match n with
  | O => w
  | S n' =>
      attempt_world fuel n' (backoff_seconds * 2)
                    (slept backoff_seconds (snd (run_client fuel w)))
  end.

End Observations.

(** ** Worlds on which the model is run *)

(** A DomainSet with a carriage return after its first entry. *)
Definition cr_domains : string :=
  "a.example.com" +:+ String PyStr.CR ",b.example.com".

(** A world with no file at all, on the Marathon that is down. *)
Definition fresh_world : world (Scripted.platform 0) :=
  World (X:=Scripted.platform 0) ∅ ∅ Scripted.down [].

(** The load balancer's app is kept under [lb_url], with the
    certificate [cert] in its [env]. *)
Definition lb_url := "http://marathon/v2/apps/lb".

Definition lb_app (cert : string) : app_definition :=
  {| labels := ∅;
     env := {[ HAPROXY_SSL_CERT := EnvStr cert ]};
     secrets := None |}.

Definition lb_environ : gmap string string :=
  {[ ENV_MARATHON_URL := "http://marathon"; ENV_MARATHON_LB_ID := "lb" ]}.

(** A Marathon that accepts the PATCH of the app [lb] without naming a
    deployment. *)
Definition blind_world : world (Scripted.platform 0) :=
  World (X:=Scripted.platform 0) lb_environ ∅
        {| Scripted.apps := {[ lb_url := lb_app "OLD" ]};
           Scripted.patch_reply := Scripted.accepted_blind;
           Scripted.polls := [] |}
        [].

(** A Marathon on which the deployment [d1] is in flight at the first
    sixty polls and gone at the sixty-first. *)
Definition late_world : world (Scripted.platform 0) :=
  World (X:=Scripted.platform 0) lb_environ ∅
        {| Scripted.apps := {[ lb_url := lb_app "OLD" ]};
           Scripted.patch_reply := Scripted.accepted "d1";
           Scripted.polls := replicate 60 ["d1"] ++ [[]] |}
        [].

Definition pem_file := ".lego/certificates/a.example.com.pem".

(** A certificate whose lines end in carriage return and line feed,
    on disk and in the load balancer's [env] alike. *)
Definition crlf_cert : string :=
  "CERTIFICATE" +:+ String PyStr.CR (String PyStr.LF "KEY").

Definition crlf_world : world (Scripted.platform 0) :=
  World (X:=Scripted.platform 0) lb_environ {[ pem_file := crlf_cert ]}
        {| Scripted.apps := {[ lb_url := lb_app crlf_cert ]};
           Scripted.patch_reply := Scripted.accepted "d1";
           Scripted.polls := [] |}
        [].

(** Two worlds with the certificate [NEW] on disk: in the first Marathon
    already holds [NEW]; in the second it holds [OLD] and accepts the
    PATCH as deployment [d1], which is gone at the second poll. *)
Definition published_world : world (Scripted.platform 0) :=
  World (X:=Scripted.platform 0) lb_environ {[ pem_file := "NEW" ]}
        {| Scripted.apps := {[ lb_url := lb_app "NEW" ]};
           Scripted.patch_reply := Scripted.accepted "d1";
           Scripted.polls := [] |}
        [].

Definition outdated_world : world (Scripted.platform 0) :=
  World (X:=Scripted.platform 0) lb_environ {[ pem_file := "NEW" ]}
        {| Scripted.apps := {[ lb_url := lb_app "OLD" ]};
           Scripted.patch_reply := Scripted.accepted "d1";
           Scripted.polls := [["d1"]; []] |}
        [].

Definition issuer_environ : gmap string string :=
  {[ ENV_LETSENCRYPT_EMAIL := "admin@example.com" ]}.

(** Two worlds in which issuance is attempted with the state file
    holding an older DomainSet: [lego] exits with 1 in the first and
    with 0 in the second. *)
Definition failing_issue_world : world (Scripted.platform 1) :=
  World (X:=Scripted.platform 1) issuer_environ
        {[ DOMAINS_FILE := "old.example.com" ]} Scripted.down [].

Definition passing_issue_world : world (Scripted.platform 0) :=
  World (X:=Scripted.platform 0) issuer_environ
        {[ DOMAINS_FILE := "old.example.com" ]} Scripted.down [].

(** The state [lego] leaves for the wildcard domain [*.example.com]: the
    certificate files carry the stored name [_.example.com], and the
    state file holds the DomainSet. *)
Definition wildcard_world : world (Scripted.platform 0) :=
  World (X:=Scripted.platform 0)
        {[ ENV_LETSENCRYPT_EMAIL := "admin@example.com";
           ENV_VERIFICATION_METHOD := "dns";
           ENV_DOMAINS := "*.example.com" ]}
        {[ DOMAINS_FILE := "*.example.com";
           ".lego/certificates/_.example.com.crt" := "CERTIFICATE";
           ".lego/certificates/_.example.com.pem" := "CERTIFICATE KEY" ]}
        Scripted.down [].

(** Worlds for the resolver: this app's definition is kept under
    [me_url] with the VHOST label [vhost]; the environment names the
    method when [method] is given, and the static list [domains]. *)

Definition me_url := "http://marathon/v2/apps/me".

Definition me_app (vhost : string) : app_definition :=
  {| labels := {[ "HAPROXY_0_VHOST" := vhost ]}; env := ∅; secrets := None |}.

Definition resolver_environ (method : option string) (domains : string)
  : gmap string string :=
  let base : gmap string string :=
    {[ ENV_MARATHON_URL := "http://marathon"; ENV_MARATHON_APP_ID := "me";
       ENV_LETSENCRYPT_EMAIL := "admin@example.com";
       ENV_DOMAINS := domains ]} in
  match method with
  | Some m => <[ENV_VERIFICATION_METHOD := m]> base
  | None => base
  end.

Definition resolver_world (method : option string) (vhost domains : string)
  : world (Scripted.platform 0) :=
  World (X:=Scripted.platform 0) (resolver_environ method domains) ∅
        {| Scripted.apps := {[ me_url := me_app vhost ]};
           Scripted.patch_reply := Scripted.accepted "d1";
           Scripted.polls := [] |}
        [].

(** A Marathon that cannot be reached: no request succeeds. *)
Definition unreachable : externals :=
  {| pstate := unit;
     marathon_get_app :=
       fun _ p => ({| app_ok := false; app_json := Scripted.no_app |}, p);
     marathon_patch_app :=
       fun _ _ p => ({| patch_ok := false; patch_json := ∅ |}, p);
     marathon_get_deployments := fun _ p => ([], p);
     lego := fun _ fs => (0, fs) |}.

Definition unreachable_world : world unreachable :=
  World (X:=unreachable) ∅ ∅ tt [].

(** ** Further observations *)

(** Whether the character [c] occurs in [s]. *)
Fixpoint has_char (c : ascii) (s : string) : bool :=
  match s with
  | EmptyString => false
  | String a s' => Ascii.eqb a c || has_char c s'
  end.

(** The PATCH requests sent, in order. *)
Fixpoint patches (t : list event) : list (string * patch_body) :=
  match t with
  | [] => []
  | EvPatch url body :: t' => (url, body) :: patches t'
  | _ :: t' => patches t'
  end.

Section Commands.

Context {X : externals}.
Implicit Types (w : world X).

(** The flags of the challenge, lines 151-155 of the script. *)
Definition challenge_args w : list string :=
  if String.eqb (verification_method w) "http" then LEGO_ARGS_HTTP
  else if String.eqb (verification_method w) "dns"
       then ["--dns"; default "route53" (environ w !! ENV_DNSPROVIDER)]
            ++ LEGO_ARGS_DNS
       else [].

(** The command line of [lego] when the e-mail address is [email]. *)
Definition lego_command w (domains email : string) : list string :=
  ["./lego"; "--server";
   default DEFAULT_LETSENCRYPT_URL (environ w !! ENV_LETSENCRYPT_URL);
   "--email"; email; "--accept-tos"; "--pem"]
  ++ flat_map (fun domain => ["--domains"; domain]) (PyStr.split "," domains)
  ++ challenge_args w
  ++ mode_args (issuance_mode w domains).

(** The world [lego] leaves when it is started with [args]. *)
Definition after_lego w (args : list string) : world X :=
  World (environ w) (snd (lego X args (files w))) (marathon w)
        (trace w ++ [EvRun args (fst (lego X args (files w)))]).

(** The world a successful issuance for [domains] leaves. *)
Definition issued w (domains : string) (args : list string) : world X :=
  World (environ w)
        (<[DOMAINS_FILE := domains]> (snd (lego X args (files w))))
        (marathon w)
        (trace w ++ [EvRun args (fst (lego X args (files w)));
                     EvWrite DOMAINS_FILE domains]).

End Commands.

(** ** Further worlds *)


(** A Marathon on which the deployment [d1] is in flight at two polls
    and gone at the third. *)
Definition three_polls_world : world (Scripted.platform 0) :=
  World (X:=Scripted.platform 0) lb_environ ∅
        {| Scripted.apps := {[ lb_url := lb_app "OLD" ]};
           Scripted.patch_reply := Scripted.accepted "d1";
           Scripted.polls := [["d1"]; ["x"; "d1"]; ["x"]] |}
        [].

(** The certificate file is empty and the load balancer has no
    certificate variable. *)
Definition empty_cert_world : world (Scripted.platform 0) :=
  World (X:=Scripted.platform 0) lb_environ {[ pem_file := "" ]}
        {| Scripted.apps :=
             {[ lb_url := {| labels := ∅; env := ∅; secrets := None |} ]};
           Scripted.patch_reply := Scripted.accepted "d1";
           Scripted.polls := [] |}
        [].

(** The load balancer holds [OLD] beside another variable and a secret. *)
Definition busy_lb_world : world (Scripted.platform 0) :=
  World (X:=Scripted.platform 0) lb_environ {[ pem_file := "NEW" ]}
        {| Scripted.apps :=
             {[ lb_url :=
                  {| labels := ∅;
                     env := {[ HAPROXY_SSL_CERT := EnvStr "OLD";
                               "PORTS" := EnvStr "80,443";
                               "TOKEN" := EnvSecret "secret0" ]};
                     secrets := Some {[ "secret0" := "lb/token" ]} |} ]};
           Scripted.patch_reply := Scripted.accepted "d1";
           Scripted.polls := [] |}
        [].

(** Worlds for a whole run: this app's label names [a.example.com], the
    load balancer holds the certificate [lb_cert]. *)
Definition pipeline_environ : gmap string string :=
  {[ ENV_MARATHON_URL := "http://marathon"; ENV_MARATHON_APP_ID := "me";
     ENV_MARATHON_LB_ID := "lb";
     ENV_LETSENCRYPT_EMAIL := "admin@example.com" ]}.

Definition pipeline_marathon (lb_cert : string) : Scripted.state :=
  {| Scripted.apps := {[ me_url := me_app "a.example.com";
                         lb_url := lb_app lb_cert ]};
     Scripted.patch_reply := Scripted.accepted "d1";
     Scripted.polls := [] |}.

(** Nothing has changed since the last run. *)
Definition steady_world : world (Scripted.platform 0) :=
  World (X:=Scripted.platform 0) pipeline_environ
        {[ DOMAINS_FILE := "a.example.com";
           ".lego/certificates/a.example.com.crt" := "CERTIFICATE";
           pem_file := "NEW" ]}
        (pipeline_marathon "NEW") [].

(** [lego] exits with 0 and leaves no certificate. *)
Definition no_pem_world : world (Scripted.platform 0) :=
  World (X:=Scripted.platform 0) pipeline_environ ∅
        (pipeline_marathon "OLD") [].

(** [lego] exits with 1. *)
Definition lego_fails_world : world (Scripted.platform 1) :=
  World (X:=Scripted.platform 1) pipeline_environ ∅
        (pipeline_marathon "OLD") [].

(** Worlds without domains: the app has no VHOST label and the
    environment has no [DOMAINS]; [method] is the verification method. *)
Definition unconfigured_world (method : string)
  : world (Scripted.platform 0) :=
  World (X:=Scripted.platform 0)
        {[ ENV_MARATHON_URL := "http://marathon"; ENV_MARATHON_APP_ID := "me";
           ENV_VERIFICATION_METHOD := method ]}
        ∅
        {| Scripted.apps :=
             {[ me_url := {| labels := ∅; env := ∅; secrets := None |} ]};
           Scripted.patch_reply := Scripted.accepted "d1";
           Scripted.polls := [] |}
        [].

(** ** The persisted domain state *)

(** A text without carriage return is read as it is. *)
Lemma universal_newlines_plain s :
  has_char PyStr.CR s = false -> PyStr.universal_newlines s = s.
Proof.
  induction s as [|c s IH]; [done|]. cbn [has_char PyStr.universal_newlines].
  destruct (Ascii.eqb c PyStr.CR); [done|]. cbn [orb].
  intros Hs. by rewrite IH.
Qed.

(** What has been read has no carriage return left. *)
Lemma universal_newlines_no_CR s :
  has_char PyStr.CR (PyStr.universal_newlines s) = false.
Proof.
  induction s as [|c s IH]; [done|]. cbn [PyStr.universal_newlines].
  destruct (Ascii.eqb c PyStr.CR) eqn:Hc.
  - destruct s as [|c' s']; [done|].
    destruct (Ascii.eqb c' PyStr.LF); [exact IH|].
    cbn [has_char]. by rewrite IH.
  - cbn [has_char]. by rewrite Hc, IH.
Qed.

Section Store.

Context {X : externals}.
Implicit Types (w : world X).

Lemma write_domains_to_file_spec w d :
  write_domains_to_file d w
  = (Returned tt,
     World (environ w) (<[DOMAINS_FILE := d]> (files w)) (marathon w)
           (trace w ++ [EvWrite DOMAINS_FILE d])).
Proof. reflexivity. Qed.

Lemma read_domains_present w d :
  files w !! DOMAINS_FILE = Some d ->
  read_domains_from_last_time w = (Returned (PyStr.universal_newlines d), w).
Proof.
  intros H. unfold read_domains_from_last_time, bind, path_exists, read_file.
  change (norm_path DOMAINS_FILE) with DOMAINS_FILE.
  rewrite H, bool_decide_eq_true_2 by eauto. cbv beta.
  change (norm_path DOMAINS_FILE) with DOMAINS_FILE. by rewrite H.
Qed.

Lemma read_domains_absent w :
  files w !! DOMAINS_FILE = None ->
  read_domains_from_last_time w = (Returned "", w).
Proof.
  intros H. unfold read_domains_from_last_time, bind, path_exists.
  change (norm_path DOMAINS_FILE) with DOMAINS_FILE.
  rewrite H. rewrite bool_decide_eq_false_2 by (intros [? ?]; done).
  reflexivity.
Qed.

(** What [read_domains_from_last_time] returns, in one expression. *)
Lemma read_domains_spec w :
  read_domains_from_last_time w = (Returned (last_domains w), w).
Proof.
  unfold last_domains. destruct (files w !! DOMAINS_FILE) as [d|] eqn:H.
  - by apply read_domains_present.
  - by apply read_domains_absent.
Qed.

(** C6, as the code has it: the state file is read in text mode.
    Writing a DomainSet [d] returns, and reading in the world it leaves
    returns [d] with its newlines translated (each carriage return, with
    the line feed that follows it if there is one, read as one line
    feed) without changing that world; so a DomainSet without carriage
    return is read back exactly.  When no state file exists, reading
    returns the empty string and raises nothing. *)
Theorem domain_store_round_trip w d :
  (exists w1, write_domains_to_file d w = (Returned tt, w1) /\
              read_domains_from_last_time w1
              = (Returned (PyStr.universal_newlines d), w1)) /\
  (has_char PyStr.CR d = false ->
   exists w1, write_domains_to_file d w = (Returned tt, w1) /\
              read_domains_from_last_time w1 = (Returned d, w1)) /\
  (files w !! DOMAINS_FILE = None ->
   read_domains_from_last_time w = (Returned "", w)).
Proof.
  assert (Hread : exists w1,
             write_domains_to_file d w = (Returned tt, w1) /\
             read_domains_from_last_time w1
             = (Returned (PyStr.universal_newlines d), w1)).
  { eexists. split; [apply write_domains_to_file_spec|].
    apply read_domains_present. cbn [files]. apply lookup_insert_eq. }
  split; [exact Hread|]. split; [|apply read_domains_absent].
  intros Hplain. by rewrite (universal_newlines_plain d Hplain) in Hread.
Qed.

End Store.

Lemma domain_store_round_trip_witness :
  (exists w1,
     write_domains_to_file "a.example.com,b.example.com" fresh_world
       = (Returned tt, w1) /\
     read_domains_from_last_time w1
       = (Returned "a.example.com,b.example.com", w1)) /\
  read_domains_from_last_time fresh_world = (Returned "", fresh_world).
Proof.
  destruct (domain_store_round_trip fresh_world "a.example.com,b.example.com")
    as (_ & Hplain & Hnone).
  split; [apply Hplain; reflexivity|]. apply Hnone. reflexivity.
Defined.

(** C6 as stated fails for a DomainSet with a carriage return: written
    and read again, the DomainSet [cr_domains] comes back with a line
    feed in its place. *)
Lemma carriage_return_is_not_read_back :
  let w1 := snd (write_domains_to_file cr_domains fresh_world) in
  fst (read_domains_from_last_time w1)
  = Returned ("a.example.com" +:+ String PyStr.LF ",b.example.com") /\
  fst (read_domains_from_last_time w1) <> Returned cr_domains.
Proof. vm_compute. split; [reflexivity | congruence]. Qed.

(** ** Publishing to Marathon and waiting for the deployment *)

Section Deployment.

Context {X : externals}.
Implicit Types (w : world X).

Lemma get_marathon_url_spec w :
  get_marathon_url w = (Returned (marathon_url w), w).
Proof. reflexivity. Qed.

Lemma wait_for_deployment_step fuel id sum w :
  wait_for_deployment (S fuel) id sum w
  = if sum + 5 >? 300 then (Raised (Exception MSG_TIMEOUT), poll_once w)
    else if in_flight id w
         then wait_for_deployment fuel id (sum + 5) (poll_once w)
         else (Returned tt, poll_once w).
Proof.
  unfold in_flight, poll_answer, poll_once.
  cbn [wait_for_deployment]. unfold bind at 1. cbn [sleep emit].
  unfold bind at 1. rewrite get_marathon_url_spec.
  unfold bind at 1, requests_get_deployments.
  cbn [environ files marathon trace].
  change (marathon_url _) with (marathon_url w).
  fold (deployments_url w).
  destruct (marathon_get_deployments X (deployments_url w) (marathon w))
    as [ds p].
  cbn [fst snd]. rewrite <- app_assoc. cbn [app].
  change (60 * 5) with 300.
  destruct (sum + 5 >? 300); [reflexivity|].
  destruct (existsb _ ds); reflexivity.
Qed.

(** The loop returns at the first poll that does not show the
    deployment, provided that poll is one of the first sixty. *)
Lemma wait_for_deployment_returns id (n : nat) :
  forall fuel sum w,
    (n < fuel)%nat ->
    sum + 5 * (Z.of_nat n + 1) <= 300 ->
    (forall i, (i < n)%nat -> in_flight id (after_polls i w) = true) ->
    in_flight id (after_polls n w) = false ->
    wait_for_deployment fuel id sum w = (Returned tt, after_polls (S n) w).
Proof.
  induction n as [|n IH]; intros fuel sum w Hfuel Hsum Hbusy Hgone;
    (destruct fuel as [|fuel]; [lia|]);
    rewrite wait_for_deployment_step;
    (destruct (Z.gtb_spec (sum + 5) 300) as [Hgt|Hle]; [lia|]).
  - cbn [after_polls] in *. by rewrite Hgone.
  - pose proof (Hbusy 0%nat ltac:(lia)) as Hnow.
    cbn [after_polls] in Hnow. rewrite Hnow.
    apply IH; [lia | lia | | exact Hgone].
    intros i Hi. apply (Hbusy (S i)). lia.
Qed.

(** The loop raises the timeout at the poll that takes the waiting time
    past 300 seconds, whatever that poll shows. *)
Lemma wait_for_deployment_times_out id (n : nat) :
  forall fuel sum w,
    (n < fuel)%nat ->
    sum + 5 * Z.of_nat n <= 300 < sum + 5 * (Z.of_nat n + 1) ->
    (forall i, (i < n)%nat -> in_flight id (after_polls i w) = true) ->
    wait_for_deployment fuel id sum w
    = (Raised (Exception MSG_TIMEOUT), after_polls (S n) w).
Proof.
  induction n as [|n IH]; intros fuel sum w Hfuel Hsum Hbusy;
    (destruct fuel as [|fuel]; [lia|]);
    rewrite wait_for_deployment_step.
  - destruct (Z.gtb_spec (sum + 5) 300) as [Hgt|Hle]; [reflexivity | lia].
  - destruct (Z.gtb_spec (sum + 5) 300) as [Hgt|Hle]; [lia|].
    pose proof (Hbusy 0%nat ltac:(lia)) as Hnow.
    cbn [after_polls] in Hnow. rewrite Hnow.
    apply IH; [lia | lia |].
    intros i Hi. apply (Hbusy (S i)). lia.
Qed.

(** Sixty-one iterations are always enough. *)
Lemma wait_for_deployment_terminates id :
  forall fuel sum w,
    sum <= 300 < sum + 5 * Z.of_nat fuel ->
    fst (wait_for_deployment fuel id sum w) <> OutOfFuel.
Proof.
  induction fuel as [|fuel IH]; intros sum w Hsum; [lia|].
  rewrite wait_for_deployment_step.
  destruct (Z.gtb_spec (sum + 5) 300) as [Hgt|Hle]; [done|].
  destruct (in_flight id w); [|done].
  apply IH; lia.
Qed.

Lemma update_marathon_app_spec fuel app_id env secrets w :
  update_marathon_app fuel app_id env secrets w
  = if patch_ok (patch_answer w app_id env secrets)
    then match patch_json (patch_answer w app_id env secrets)
                 !! "deploymentId" with
         | Some id =>
             wait_for_deployment fuel id 0 (after_patch w app_id env secrets)
         | None =>
             (Raised (Exception MSG_NO_DEPLOYMENT_ID),
              after_patch w app_id env secrets)
         end
    else (Raised (Exception MSG_UPDATE_FAILED),
          after_patch w app_id env secrets).
Proof.
  unfold update_marathon_app, patch_answer, after_patch.
  unfold bind at 1. rewrite get_marathon_url_spec.
  unfold bind at 1, requests_patch. fold (app_url w app_id).
  destruct (marathon_patch_app X _ _ _) as [r p]. cbn [fst snd].
  destruct (patch_ok r); cbn [negb]; [|reflexivity].
  destruct (patch_json r !! "deploymentId"); reflexivity.
Qed.

(** C8: when the PATCH is answered with success and the body of the
    answer has no [deploymentId], [update_marathon_app] raises its
    missing-deployment-id exception; the PATCH is the only thing it has
    done by then: it polls nothing and reports no completion. *)
Theorem update_without_deployment_id
    fuel app_id env secrets w (r : patch_response) (p : pstate X) :
  marathon_patch_app X (app_url w app_id)
    {| body_id := app_id; body_env := env; body_secrets := secrets |}
    (marathon w) = (r, p) ->
  patch_ok r = true ->
  patch_json r !! "deploymentId" = None ->
  update_marathon_app fuel app_id env secrets w
  = (Raised (Exception MSG_NO_DEPLOYMENT_ID),
     World (environ w) (files w) p
           (trace w ++ [EvPatch (app_url w app_id)
                          {| body_id := app_id; body_env := env;
                             body_secrets := secrets |}])).
Proof.
  intros Hpatch Hok Hid.
  unfold update_marathon_app. unfold bind at 1.
  rewrite get_marathon_url_spec.
  unfold bind at 1, requests_patch. fold (app_url w app_id).
  rewrite Hpatch, Hok. cbn [negb]. by rewrite Hid.
Qed.

End Deployment.

Lemma update_without_deployment_id_witness :
  fst (update_marathon_app 61 (Some "lb") ∅ ∅ blind_world)
  = Raised (Exception MSG_NO_DEPLOYMENT_ID) /\
  trace (snd (update_marathon_app 61 (Some "lb") ∅ ∅ blind_world))
  = [EvPatch lb_url
       {| body_id := Some "lb"; body_env := ∅; body_secrets := ∅ |}].
Proof.
  rewrite (update_without_deployment_id 61 (Some "lb") ∅ ∅ blind_world
             Scripted.accepted_blind
             {| Scripted.apps :=
                  {[ lb_url := {| labels := ∅; env := ∅;
                                  secrets := Some ∅ |} ]};
                Scripted.patch_reply := Scripted.accepted_blind;
                Scripted.polls := [] |});
    [split; reflexivity | vm_compute; reflexivity | reflexivity
    | vm_compute; reflexivity].
Defined.

(** C3, at the input where the code departs from it: the PATCH is
    accepted as deployment [d1], the first sixty polls show [d1] and the
    sixty-first poll does not.  [update_marathon_app] then raises the
    timeout exception at that sixty-first poll, 305 seconds after the
    PATCH, although the poll shows that the deployment is complete. *)
Theorem timeout_raised_on_poll_without_deployment :
  let patched := after_patch late_world (Some "lb") ∅ ∅ in
  patch_json (patch_answer late_world (Some "lb") ∅ ∅) !! "deploymentId"
  = Some "d1" /\
  forallb (fun i => in_flight "d1" (after_polls i patched)) (seq 0 60)
  = true /\
  in_flight "d1" (after_polls 60 patched) = false /\
  update_marathon_app 61 (Some "lb") ∅ ∅ late_world
  = (Raised (Exception MSG_TIMEOUT), after_polls 61 patched) /\
  waited (trace (after_polls 61 patched)) = 305.
Proof. vm_compute. repeat split; reflexivity. Qed.

(** ** Publishing the certificate *)

Section Publish.

Context {X : externals}.
Implicit Types (w : world X).

Lemma get_marathon_app_spec app_id w :
  get_marathon_app app_id w
  = if app_ok (get_answer w app_id)
    then (Returned (app_json (get_answer w app_id)), after_get w app_id)
    else (Raised (Exception MSG_GET_FAILED), after_get w app_id).
Proof.
  unfold get_marathon_app, get_answer, after_get.
  unfold bind at 1. rewrite get_marathon_url_spec.
  unfold bind at 1, requests_get_app. fold (app_url w app_id).
  destruct (marathon_get_app X _ _) as [r p]. cbn [fst snd].
  destruct (app_ok r); reflexivity.
Qed.

Lemma upload_cert_to_marathon_lb_spec fuel cert_filename w :
  upload_cert_to_marathon_lb fuel cert_filename w
  = match files w !! norm_path cert_filename with
    | None => (Raised (FileNotFoundError cert_filename), w)
    | Some content =>
        if app_ok (get_answer w (lb_id w)) then
          let env := env (app_json (get_answer w (lb_id w))) in
          if bool_decide (default (EnvStr "") (env !! HAPROXY_SSL_CERT)
                          <> EnvStr (PyStr.universal_newlines content))
          then update_marathon_app fuel (lb_id w)
                 (<[HAPROXY_SSL_CERT
                    := EnvStr (PyStr.universal_newlines content)]> env)
                 (default ∅ (secrets (app_json (get_answer w (lb_id w)))))
                 (after_get w (lb_id w))
          else (Returned tt, after_get w (lb_id w))
        else (Raised (Exception MSG_GET_FAILED), after_get w (lb_id w))
    end.
Proof.
  unfold upload_cert_to_marathon_lb. unfold bind at 1, read_file.
  destruct (files w !! norm_path cert_filename) as [c|]; [|reflexivity].
  unfold bind at 1, getenv. fold (lb_id w).
  unfold bind at 1. rewrite get_marathon_app_spec.
  destruct (app_ok (get_answer w (lb_id w))); [|reflexivity].
  cbn zeta. destruct (bool_decide _); reflexivity.
Qed.

(** The waiting loop changes neither the environment nor the files nor
    what Marathon keeps. *)
Lemma wait_for_deployment_keeps stored id :
  faithful_store X stored ->
  forall fuel sum w,
    let w' := snd (wait_for_deployment fuel id sum w) in
    environ w' = environ w /\ files w' = files w /\
    stored (marathon w') = stored (marathon w).
Proof.
  intros HF. induction fuel as [|fuel IH]; intros sum w; [done|].
  cbn zeta. rewrite wait_for_deployment_step.
  assert (Hp : environ (poll_once w) = environ w /\
               files (poll_once w) = files w /\
               stored (marathon (poll_once w)) = stored (marathon w)).
  { repeat split. apply (poll_keeps _ _ HF). }
  destruct (sum + 5 >? 300); [exact Hp|].
  destruct (in_flight id w); [|exact Hp].
  destruct (IH (sum + 5) (poll_once w)) as (He & Hf & Hs).
  destruct Hp as (He' & Hf' & Hs').
  repeat split; congruence.
Qed.

(** When Marathon already keeps the certificate as it is read, the
    upload sends the GET and nothing else. *)
Lemma upload_when_published stored fuel cert_filename content w a :
  faithful_store X stored ->
  files w !! norm_path cert_filename = Some content ->
  stored (marathon w) (app_url w (lb_id w)) = Some a ->
  default (EnvStr "") (env a !! HAPROXY_SSL_CERT)
  = EnvStr (PyStr.universal_newlines content) ->
  trace (snd (upload_cert_to_marathon_lb fuel cert_filename w))
  = trace w ++ [EvGet (app_url w (lb_id w))].
Proof.
  intros HF Hfile Hkept Hcert.
  rewrite upload_cert_to_marathon_lb_spec, Hfile.
  destruct (app_ok (get_answer w (lb_id w))) eqn:Hok; [|reflexivity].
  apply (get_reads _ _ HF) in Hok. fold (get_answer w (lb_id w)) in Hok.
  rewrite Hkept in Hok. injection Hok as <-.
  cbn zeta. rewrite Hcert.
  rewrite bool_decide_eq_false_2 by (intros H; by apply H).
  reflexivity.
Qed.

(** An upload that returns leaves the certificate, as it is read, kept
    by Marathon. *)
Lemma upload_publishes stored fuel cert_filename content w w1 :
  faithful_store X stored ->
  files w !! norm_path cert_filename = Some content ->
  upload_cert_to_marathon_lb fuel cert_filename w = (Returned tt, w1) ->
  environ w1 = environ w /\ files w1 = files w /\
  exists a, stored (marathon w1) (app_url w (lb_id w)) = Some a /\
            default (EnvStr "") (env a !! HAPROXY_SSL_CERT)
            = EnvStr (PyStr.universal_newlines content).
Proof.
  intros HF Hfile. rewrite upload_cert_to_marathon_lb_spec, Hfile.
  destruct (app_ok (get_answer w (lb_id w))) eqn:Hok; [|done].
  cbn zeta. case_bool_decide as Hdiff.
  - rewrite update_marathon_app_spec.
    set (e := <[HAPROXY_SSL_CERT := _]> _).
    set (s := default ∅ _).
    destruct (patch_ok _) eqn:Hpok; [|done].
    destruct (patch_json _ !! "deploymentId") as [id|]; [|done].
    intros Hwait.
    destruct (wait_for_deployment_keeps stored id HF fuel 0
                (after_patch (after_get w (lb_id w)) (lb_id w) e s))
      as (He & Hf & Hs).
    rewrite Hwait in He, Hf, Hs. cbn [snd] in He, Hf, Hs.
    split; [exact He|]. split; [exact Hf|].
    rewrite Hs. cbn [after_patch marathon].
    destruct (patch_stores _ _ HF _ _ _ Hpok) as (a & Ha & Hea).
    exists a. split; [exact Ha|].
    rewrite Hea. cbn [body_env]. subst e. by rewrite lookup_insert_eq.
  - intros [= <-]. cbn [after_get environ files marathon].
    repeat split. rewrite (get_keeps _ _ HF).
    apply (get_reads _ _ HF) in Hok. fold (get_answer w (lb_id w)) in Hok.
    eexists. split; [exact Hok|].
    exact Hdiff.
Qed.

(** C2, as the code has it: the certificate file is read in text mode
    and compared as read.  Let the file hold [content].  (1) If the GET
    of the load balancer's app definition succeeds and its [env] holds,
    under [HAPROXY_SSL_CERT], exactly [content] with its newlines
    translated, the upload returns in the world reached by that one
    GET: no PATCH is sent.  (2) That is so in particular when [content]
    has no carriage return and [env] holds exactly [content].  (3) On a
    Marathon that keeps what it is given, after an upload that
    returned, a second upload of the same file adds the GET to the
    trace and nothing else: no PATCH, whatever [content] is. *)
Theorem publish_idempotent fuel cert_filename content w :
  files w !! norm_path cert_filename = Some content ->
  (app_ok (get_answer w (lb_id w)) = true ->
   env (app_json (get_answer w (lb_id w))) !! HAPROXY_SSL_CERT
   = Some (EnvStr (PyStr.universal_newlines content)) ->
   upload_cert_to_marathon_lb fuel cert_filename w
   = (Returned tt, after_get w (lb_id w)) /\
   trace (after_get w (lb_id w)) = trace w ++ [EvGet (app_url w (lb_id w))])
  /\
  (has_char PyStr.CR content = false ->
   app_ok (get_answer w (lb_id w)) = true ->
   env (app_json (get_answer w (lb_id w))) !! HAPROXY_SSL_CERT
   = Some (EnvStr content) ->
   upload_cert_to_marathon_lb fuel cert_filename w
   = (Returned tt, after_get w (lb_id w)))
  /\
  (forall stored w1,
     faithful_store X stored ->
     upload_cert_to_marathon_lb fuel cert_filename w = (Returned tt, w1) ->
     files w1 !! norm_path cert_filename = Some content /\
     trace (snd (upload_cert_to_marathon_lb fuel cert_filename w1))
     = trace w1 ++ [EvGet (app_url w1 (lb_id w1))]).
Proof.
  intros Hfile.
  assert (Hsame :
            app_ok (get_answer w (lb_id w)) = true ->
            env (app_json (get_answer w (lb_id w))) !! HAPROXY_SSL_CERT
            = Some (EnvStr (PyStr.universal_newlines content)) ->
            upload_cert_to_marathon_lb fuel cert_filename w
            = (Returned tt, after_get w (lb_id w))).
  { intros Hok Hcert.
    rewrite upload_cert_to_marathon_lb_spec, Hfile, Hok. cbn zeta.
    rewrite Hcert. cbn [default].
    by rewrite bool_decide_eq_false_2 by (intros H; by apply H). }
  split; [|split].
  - intros Hok Hcert. split; [by apply Hsame | reflexivity].
  - intros Hplain Hok Hcert. apply Hsame; [done|].
    by rewrite (universal_newlines_plain content Hplain).
  - intros stored w1 HF Hfirst.
    destruct (upload_publishes stored _ _ _ _ _ HF Hfile Hfirst)
      as (He & Hf & a & Ha & Hcert).
    assert (Hurl : app_url w1 (lb_id w1) = app_url w (lb_id w)).
    { unfold app_url, marathon_url, lb_id. by rewrite He. }
    rewrite Hf. split; [exact Hfile|].
    rewrite <- Hf in Hfile. rewrite <- Hurl in Ha.
    by apply (upload_when_published stored _ _ _ _ a HF Hfile Ha).
Qed.

End Publish.

Lemma scripted_faithful_store rc :
  faithful_store (Scripted.platform rc) (fun s url => Scripted.apps s !! url).
Proof.
  split; cbn [marathon_get_app marathon_patch_app marathon_get_deployments
              Scripted.platform].
  - intros url p. unfold Scripted.get_app. by destruct (Scripted.apps p !! url).
  - intros url p. unfold Scripted.get_app.
    by destruct (Scripted.apps p !! url).
  - intros url b p. unfold Scripted.patch_app.
    destruct (Scripted.apps p !! url) as [a|]; [|done].
    destruct (patch_ok (Scripted.patch_reply p)) eqn:Hok;
      cbn [fst snd]; [|by rewrite Hok].
    intros _. eexists. cbn [Scripted.apps].
    split; [apply lookup_insert_eq | reflexivity].
  - intros url p. unfold Scripted.get_deployments.
    by destruct (Scripted.polls p).
Qed.

Lemma publish_idempotent_witness :
  trace (snd (upload_cert_to_marathon_lb 61 pem_file published_world))
  = [EvGet lb_url] /\
  let w1 := snd (upload_cert_to_marathon_lb 61 pem_file outdated_world) in
  trace (snd (upload_cert_to_marathon_lb 61 pem_file w1))
  = trace w1 ++ [EvGet lb_url].
Proof.
  split.
  - destruct (publish_idempotent 61 pem_file "NEW" published_world eq_refl)
      as (_ & Hsame & _).
    rewrite (Hsame eq_refl eq_refl eq_refl). reflexivity.
  - destruct (publish_idempotent 61 pem_file "NEW" outdated_world eq_refl)
      as (_ & _ & Htwice).
    cbv zeta.
    destruct (Htwice _ (snd (upload_cert_to_marathon_lb 61 pem_file
                                outdated_world))
                (scripted_faithful_store 0)) as [_ Htrace].
    + vm_compute. reflexivity.
    + exact Htrace.
Defined.

(** C2 as stated fails for a certificate with carriage returns: the
    file and the [env] of the load balancer hold the same text
    [crlf_cert], and the upload sends a PATCH all the same, because the
    text is read with its newlines translated. *)
Lemma same_certificate_with_carriage_returns_is_patched :
  files crlf_world !! norm_path pem_file = Some crlf_cert /\
  env (app_json (get_answer crlf_world (lb_id crlf_world))) !! HAPROXY_SSL_CERT
  = Some (EnvStr crlf_cert) /\
  patches (trace crlf_world) = [] /\
  length (patches (trace (snd (upload_cert_to_marathon_lb 61 pem_file
                                 crlf_world)))) = 1%nat.
Proof. vm_compute. repeat split; reflexivity. Qed.

(** ** Issuing the certificate *)

Section Issuer.

Context {X : externals}.
Implicit Types (w : world X).

Lemma generate_letsencrypt_cert_spec domains w :
  generate_letsencrypt_cert domains w
  = match mapM id (lego_argv w domains) with
    | None => (Raised TypeError, w)
    | Some args =>
        let rc := fst (lego X args (files w)) in
        let fs := snd (lego X args (files w)) in
        if negb (rc =? 0)%Z
        then (Raised (Exception MSG_LEGO_FAILED),
              World (environ w) fs (marathon w) (trace w ++ [EvRun args rc]))
        else (Returned (first_domain domains),
              World (environ w) (<[DOMAINS_FILE := domains]> fs) (marathon w)
                    (trace w ++ [EvRun args rc;
                                 EvWrite DOMAINS_FILE domains]))
    end.
Proof.
  unfold generate_letsencrypt_cert.
  unfold bind at 1. rewrite read_domains_spec. fold (last_domains w).
  unfold bind at 1, getenv. fold (verification_method w).
  unfold bind at 1. unfold bind at 1, path_exists.
  fold (first_domain domains). fold (issuance_mode w domains).
  unfold bind at 1, subprocess_run. fold (lego_argv w domains).
  destruct (mapM id (lego_argv w domains)) as [args|]; [|reflexivity].
  destruct (lego X args (files w)) as [rc fs]. cbn [fst snd].
  destruct (negb (rc =? 0)%Z); [reflexivity|].
  unfold bind, write_domains_to_file, write_file, ret.
  cbn [environ files marathon trace].
  change (norm_path DOMAINS_FILE) with DOMAINS_FILE.
  by rewrite <- app_assoc.
Qed.

(** The decision as the code takes it: renewal exactly when the
    DomainSet equals the persisted one and the file at [crt_filepath]
    of the first entry exists. *)
Lemma issuance_mode_renew_iff w domains :
  issuance_mode w domains = Renew
  <-> domains = last_domains w
      /\ is_Some (files w !! norm_path (crt_filepath (first_domain domains))).
Proof.
  unfold issuance_mode. rewrite negb_involutive.
  destruct (String.eqb_spec domains (last_domains w)) as [Heq|Hne];
    cbn [andb].
  - case_bool_decide; split; try done. by intros [_ ?].
  - split; [done|]. by intros [? _].
Qed.

Lemma issuance_mode_run_iff w domains :
  issuance_mode w domains = Run
  <-> ~ (domains = last_domains w
         /\ is_Some (files w !! norm_path
                       (crt_filepath (first_domain domains)))).
Proof.
  rewrite <- issuance_mode_renew_iff.
  destruct (issuance_mode w domains); split; try done.
Qed.

Lemma get_cert_filepath_stored_name domain_name :
  get_cert_filepath domain_name
  = CERTIFICATES_DIR +:+ "/" +:+ stored_name domain_name +:+ ".pem".
Proof. reflexivity. Qed.

(** For a first entry that is no wildcard the file the code tests is the
    stored certificate, and the decision is the one of the decision rule. *)
Lemma issuance_mode_plain_domain w domains :
  PyStr.startswith "*" (first_domain domains) = false ->
  issuance_mode w domains = Renew
  <-> domains = last_domains w
      /\ is_Some (files w !! norm_path
                    (stored_crt_filepath (first_domain domains))).
Proof.
  intros Hplain. rewrite issuance_mode_renew_iff.
  unfold stored_crt_filepath, stored_name. by rewrite Hplain.
Qed.

(** C7: issuance is atomic with respect to the persisted domain state.
    Let [lego] be started with [args] and leave the state file as it
    found it.  If it exits nonzero, [generate_letsencrypt_cert] raises
    its failure exception, the files are the ones [lego] left, the state
    file among them unchanged, and nothing follows the run in the trace.
    If it exits 0, the function returns the first entry and the state
    file holds the new DomainSet, written after the run. *)
Theorem issuance_atomic domains w args :
  mapM id (lego_argv w domains) = Some args ->
  snd (lego X args (files w)) !! DOMAINS_FILE = files w !! DOMAINS_FILE ->
  let rc := fst (lego X args (files w)) in
  let r := generate_letsencrypt_cert domains w in
  (rc <> 0 ->
   fst r = Raised (Exception MSG_LEGO_FAILED) /\
   files (snd r) = snd (lego X args (files w)) /\
   files (snd r) !! DOMAINS_FILE = files w !! DOMAINS_FILE /\
   trace (snd r) = trace w ++ [EvRun args rc]) /\
  (rc = 0 ->
   fst r = Returned (first_domain domains) /\
   files (snd r) !! DOMAINS_FILE = Some domains /\
   trace (snd r)
   = trace w ++ [EvRun args 0; EvWrite DOMAINS_FILE domains]).
Proof.
  intros Hargs Hframe rc r. subst r.
  rewrite generate_letsencrypt_cert_spec, Hargs. cbn zeta. fold rc.
  split; intros Hrc.
  - apply Z.eqb_neq in Hrc. rewrite Hrc. cbn [negb fst snd files trace].
    done.
  - rewrite Hrc. cbn [Z.eqb negb fst snd files trace].
    split; [done|]. split; [apply lookup_insert_eq | done].
Qed.

End Issuer.

Lemma issuance_atomic_witness :
  (fst (generate_letsencrypt_cert "a.example.com" failing_issue_world)
   = Raised (Exception MSG_LEGO_FAILED) /\
   files (snd (generate_letsencrypt_cert "a.example.com"
                 failing_issue_world)) !! DOMAINS_FILE
   = Some "old.example.com") /\
  (fst (generate_letsencrypt_cert "a.example.com" passing_issue_world)
   = Returned "a.example.com" /\
   files (snd (generate_letsencrypt_cert "a.example.com"
                 passing_issue_world)) !! DOMAINS_FILE
   = Some "a.example.com").
Proof.
  split.
  - destruct (issuance_atomic "a.example.com" failing_issue_world _
                eq_refl eq_refl) as [Hfail _].
    destruct Hfail as (Hr & _ & Hf & _); [done|].
    split; [exact Hr|]. rewrite Hf. reflexivity.
  - destruct (issuance_atomic "a.example.com" passing_issue_world _
                eq_refl eq_refl) as [_ Hpass].
    destruct Hpass as (Hr & Hf & _); [done|].
    split; [exact Hr | exact Hf].
Defined.

(** C1, at the input where the code departs from it: the DomainSet
    [*.example.com] equals the persisted one and the certificate of its
    first entry exists, both as the [.pem] file [get_cert_filepath]
    names and as its [.crt] sibling; [generate_letsencrypt_cert]
    nevertheless starts [lego] in [run] mode, because the path it tests
    keeps the asterisk. *)
Theorem wildcard_domain_selects_run :
  last_domains wildcard_world = "*.example.com" /\
  files wildcard_world
    !! norm_path (get_cert_filepath (first_domain "*.example.com"))
  = Some "CERTIFICATE KEY" /\
  files wildcard_world
    !! norm_path (stored_crt_filepath (first_domain "*.example.com"))
  = Some "CERTIFICATE" /\
  files wildcard_world
    !! norm_path (crt_filepath (first_domain "*.example.com")) = None /\
  issuance_mode wildcard_world "*.example.com" = Run /\
  trace (snd (generate_letsencrypt_cert "*.example.com" wildcard_world))
  = [EvRun ["./lego"; "--server"; DEFAULT_LETSENCRYPT_URL;
            "--email"; "admin@example.com"; "--accept-tos"; "--pem";
            "--domains"; "*.example.com";
            "--dns"; "route53";
            "--dns-resolvers"; "8.8.8.8:53"; "--exclude"; "http-01";
            "run"] 0;
     EvWrite DOMAINS_FILE "*.example.com"].
Proof. vm_compute. repeat split; reflexivity. Qed.

(** ** Resolving the domains *)

Section Resolver.

Context {X : externals}.
Implicit Types (w : world X).

Lemma get_domains_spec w :
  get_domains w
  = if app_ok (get_answer w (own_app_id w)) then
      if String.eqb (verification_method w) "http" then
        match labels (app_json (get_answer w (own_app_id w)))
              !! "HAPROXY_0_VHOST" with
        | Some vhost => (Returned (Some vhost), after_get w (own_app_id w))
        | None => (Raised (KeyError "HAPROXY_0_VHOST"),
                   after_get w (own_app_id w))
        end
      else if String.eqb (verification_method w) "dns" then
        (Returned (environ w !! ENV_DOMAINS), after_get w (own_app_id w))
      else (Raised (Exception (MSG_UNKNOWN_METHOD +:+ verification_method w)),
            after_get w (own_app_id w))
    else (Raised (Exception MSG_GET_FAILED), after_get w (own_app_id w)).
Proof.
  unfold get_domains. unfold bind at 1, getenv. fold (own_app_id w).
  unfold bind at 1. rewrite get_marathon_app_spec.
  destruct (app_ok (get_answer w (own_app_id w))); [|reflexivity].
  unfold bind at 1. cbn [after_get environ]. fold (verification_method w).
  destruct (String.eqb (verification_method w) "http").
  - by destruct (labels _ !! "HAPROXY_0_VHOST").
  - by destruct (String.eqb (verification_method w) "dns").
Qed.

(** C5, as the code has it: [get_domains] reads the app definition once
    whatever the verification method is (http, dns or any other value),
    because the GET precedes the test of the method; the GET is the only
    effect of the function. *)
Theorem get_domains_reads_once w :
  snd (get_domains w) = after_get w (own_app_id w) /\
  trace (snd (get_domains w)) = trace w ++ [EvGet (app_url w (own_app_id w))].
Proof.
  assert (H : snd (get_domains w) = after_get w (own_app_id w)).
  { rewrite get_domains_spec.
    destruct (app_ok _); [|reflexivity].
    destruct (String.eqb _ "http"); [by destruct (labels _ !! _)|].
    by destruct (String.eqb _ "dns"). }
  split; [exact H|]. by rewrite H.
Qed.

(** Splitting at commas always yields a first entry. *)
Lemma split_nonempty sep s : PyStr.split sep s <> [].
Proof.
  destruct s as [|c s]; cbn [PyStr.split]; [done|].
  destruct (Ascii.eqb c sep); [done|]. by destruct (PyStr.split sep s).
Qed.

Lemma first_domain_empty_iff domains :
  first_domain domains = ""
  <-> domains = "" \/ PyStr.startswith "," domains = true.
Proof.
  unfold first_domain. destruct domains as [|c s]; cbn [PyStr.split hd].
  - split; [by left | done].
  - destruct (Ascii.eqb_spec c ",") as [->|Hne]; cbn [hd].
    + split; [intros _; by right | done].
    + assert (Hno : PyStr.startswith "," (String c s) = false).
      { cbn [PyStr.startswith]. rewrite Ascii.eqb_sym.
        apply Ascii.eqb_neq in Hne. by rewrite Hne. }
      rewrite Hno.
      destruct (PyStr.split "," s); cbn [hd]; split; try done;
        intros [H|H]; done.
Qed.

Lemma verification_method_absent w :
  environ w !! ENV_VERIFICATION_METHOD = None ->
  verification_method w = "http".
Proof. unfold verification_method. by intros ->. Qed.

Lemma verification_method_with_method m w :
  verification_method (with_method m w) = m.
Proof.
  unfold verification_method, with_method. cbn [environ].
  by rewrite lookup_insert_eq.
Qed.

Lemma environ_with_method m w name :
  name <> ENV_VERIFICATION_METHOD ->
  environ (with_method m w) !! name = environ w !! name.
Proof. intros Hne. cbn [with_method environ]. by rewrite lookup_insert_ne. Qed.

Lemma app_url_with_method m w app_id :
  app_url (with_method m w) app_id = app_url w app_id.
Proof.
  unfold app_url, marathon_url. by rewrite environ_with_method.
Qed.

Lemma lego_argv_with_http w domains :
  environ w !! ENV_VERIFICATION_METHOD = None ->
  lego_argv (with_method "http" w) domains = lego_argv w domains.
Proof.
  intros Habsent. unfold lego_argv, DEFAULT_LEGO_ARGS.
  rewrite verification_method_with_method,
    (verification_method_absent w Habsent).
  by rewrite !environ_with_method.
Qed.

(** C10: the verification method defaults to http.  When
    [LETSENCRYPT_VERIFICATION_METHOD] is not set, [get_domains] and
    [generate_letsencrypt_cert] run as they do with the variable set to
    [http]: same result, same files, same requests, same [lego] command
    line.  And when [get_domains] raises the unknown-method exception
    for a method [m], the variable is set to [m], which is neither
    [http] nor [dns]. *)
Theorem method_defaults_to_http w :
  (environ w !! ENV_VERIFICATION_METHOD = None ->
   same_run (get_domains w) (get_domains (with_method "http" w)) /\
   forall domains,
     lego_argv w domains = lego_argv (with_method "http" w) domains /\
     same_run (generate_letsencrypt_cert domains w)
              (generate_letsencrypt_cert domains (with_method "http" w))) /\
  (forall m w',
     get_domains w = (Raised (Exception (MSG_UNKNOWN_METHOD +:+ m)), w') ->
     environ w !! ENV_VERIFICATION_METHOD = Some m /\
     m <> "http" /\ m <> "dns").
Proof.
  split.
  - intros Habsent. split.
    + rewrite !get_domains_spec.
      rewrite verification_method_with_method,
        (verification_method_absent w Habsent).
      unfold own_app_id, get_answer, after_get.
      rewrite !app_url_with_method, !environ_with_method by done.
      cbn [with_method marathon files trace String.eqb Ascii.eqb
           Bool.eqb].
      destruct (app_ok _); [|done].
      by destruct (labels _ !! "HAPROXY_0_VHOST").
    + intros domains.
      split; [by rewrite lego_argv_with_http|].
      rewrite !generate_letsencrypt_cert_spec.
      rewrite lego_argv_with_http by done.
      cbn [with_method files].
      destruct (mapM id (lego_argv w domains)) as [args|]; [|done].
      cbn zeta. by destruct (negb _).
  - intros m w'. rewrite get_domains_spec.
    destruct (app_ok _); [|by intros [=]].
    destruct (String.eqb_spec (verification_method w) "http") as [|Hhttp].
    { by destruct (labels _ !! "HAPROXY_0_VHOST"). }
    destruct (String.eqb_spec (verification_method w) "dns") as [|Hdns];
      [done|].
    intros [= Hm _]. revert Hhttp Hdns Hm. unfold verification_method.
    destruct (environ w !! ENV_VERIFICATION_METHOD) as [v|];
      cbn [default]; [|done].
    intros Hhttp Hdns Hm. change (v = m) in Hm. by subst v.
Qed.

End Resolver.

Lemma method_defaults_to_http_witness :
  same_run
    (get_domains (resolver_world None "a.example.com" "x.example.com"))
    (get_domains (with_method "http"
                    (resolver_world None "a.example.com" "x.example.com")))
  /\
  environ (resolver_world (Some "tls") "a.example.com" "x.example.com")
    !! ENV_VERIFICATION_METHOD = Some "tls".
Proof.
  split.
  - destruct (method_defaults_to_http
                (resolver_world None "a.example.com" "x.example.com"))
      as [Hdefault _].
    destruct (Hdefault eq_refl) as [Hget _]. exact Hget.
  - destruct (method_defaults_to_http
                (resolver_world (Some "tls") "a.example.com" "x.example.com"))
      as [_ Hunknown].
    destruct (Hunknown "tls" _ eq_refl) as [Hset _]. exact Hset.
Defined.

(** C5 as stated fails in dns mode: the domains come from [DOMAINS], and
    [get_domains] has nevertheless sent a GET for the app definition. *)
Lemma dns_mode_reads_app_definition :
  let w := resolver_world (Some "dns") "a.example.com" "x.example.com" in
  verification_method w = "dns" /\
  fst (get_domains w) = Returned (Some "x.example.com") /\
  trace (snd (get_domains w)) = trace w ++ [EvGet me_url] /\
  trace (snd (get_domains w)) <> trace w.
Proof. vm_compute. repeat split; done. Qed.

(** C9 as stated fails when the label is empty: the DomainSet
    [get_domains] returns is the empty string. *)
Lemma empty_vhost_gives_empty_domain_set :
  let w := resolver_world None "" "x.example.com" in
  fst (get_domains w) = Returned (Some "") /\
  first_domain "" = "".
Proof. vm_compute. split; reflexivity. Qed.

(** C9, as the code has it: the resolver returns the label (http mode)
    or the [DOMAINS] variable (dns mode) as it is, whatever string [d]
    that is, the empty one included.  A first entry exists all the
    same, because splitting at commas yields at least one entry for
    every string; that entry is the empty string exactly when [d] is
    empty or begins with a comma. *)
Theorem domain_set_unchecked_first_entry_exists (d : string) :
  fst (get_domains (resolver_world None d "")) = Returned (Some d) /\
  fst (get_domains (resolver_world (Some "dns") "" d)) = Returned (Some d) /\
  (exists first rest,
     PyStr.split "," d = first :: rest /\ first_domain d = first) /\
  (first_domain d = "" <-> d = "" \/ PyStr.startswith "," d = true).
Proof.
  split; [vm_compute; reflexivity|].
  split; [vm_compute; reflexivity|].
  split; [|apply first_domain_empty_iff].
  unfold first_domain. pose proof (split_nonempty "," d) as Hne.
  destruct (PyStr.split "," d) as [|first rest]; [done|].
  by exists first, rest.
Qed.

(** ** Retrying with backoff *)

Lemma backoff_sleeps_app t1 t2 :
  backoff_sleeps (t1 ++ t2) = backoff_sleeps t1 ++ backoff_sleeps t2.
Proof.
  induction t1 as [|e t1 IH]; [done|].
  destruct e as [| |[] ?| |]; cbn [app backoff_sleeps]; by rewrite IH.
Qed.

Section Backoff.

Context {X : externals}.
Implicit Types (w : world X).

Local Abbreviation quiet m := (quiet (X:=X) m).

Lemma quiet_ret {A} (a : A) : quiet (ret a).
Proof. done. Qed.

Lemma quiet_raise {A} e : quiet (raise (A:=A) e).
Proof. done. Qed.

Lemma quiet_out_of_fuel {A} : quiet (out_of_fuel (A:=A)).
Proof. done. Qed.

Lemma quiet_bind {A B} (m : M A) (k : A -> M B) :
  quiet m -> (forall a, quiet (k a)) -> quiet (bind m k).
Proof.
  intros Hm Hk w. unfold bind. specialize (Hm w).
  destruct (m w) as [[a| |] w1]; cbn [snd] in Hm; [|done|done].
  by rewrite Hk.
Qed.

Lemma quiet_emit e :
  backoff_sleeps [e] = [] -> quiet (emit e).
Proof.
  intros He w. cbn [emit snd trace].
  by rewrite backoff_sleeps_app, He, app_nil_r.
Qed.

Lemma quiet_getenv name : quiet (getenv name).
Proof. done. Qed.

Lemma quiet_path_exists path : quiet (path_exists path).
Proof. done. Qed.

Lemma quiet_read_file path : quiet (read_file path).
Proof. intros w. unfold read_file. by destruct (files w !! _). Qed.

Lemma quiet_write_file path content : quiet (write_file path content).
Proof.
  intros w. cbn [write_file snd trace].
  by rewrite backoff_sleeps_app, app_nil_r.
Qed.

Lemma quiet_requests_get_app url : quiet (requests_get_app url).
Proof.
  intros w. unfold requests_get_app.
  destruct (marathon_get_app X url (marathon w)). cbn [snd trace].
  by rewrite backoff_sleeps_app, app_nil_r.
Qed.

Lemma quiet_requests_get_deployments url :
  quiet (requests_get_deployments url).
Proof.
  intros w. unfold requests_get_deployments.
  destruct (marathon_get_deployments X url (marathon w)). cbn [snd trace].
  by rewrite backoff_sleeps_app, app_nil_r.
Qed.

Lemma quiet_requests_patch url body : quiet (requests_patch url body).
Proof.
  intros w. unfold requests_patch.
  destruct (marathon_patch_app X url body (marathon w)). cbn [snd trace].
  by rewrite backoff_sleeps_app, app_nil_r.
Qed.

Lemma quiet_subprocess_run argv : quiet (subprocess_run argv).
Proof.
  intros w. unfold subprocess_run.
  destruct (mapM id argv) as [args|]; [|done].
  destruct (lego X args (files w)). cbn [snd trace].
  by rewrite backoff_sleeps_app, app_nil_r.
Qed.

Create HintDb quiet.
Hint Resolve quiet_ret quiet_raise quiet_out_of_fuel quiet_getenv
  quiet_path_exists quiet_read_file quiet_write_file quiet_requests_get_app
  quiet_requests_get_deployments quiet_requests_patch quiet_subprocess_run
  : quiet.

Ltac quiet_step :=
  match goal with
  | |- quiet (bind _ _) => apply quiet_bind; [|intros ?]
  | |- quiet (sleep DeploymentPoll _) => by apply quiet_emit
  | |- quiet (if ?b then _ else _) => destruct b
  | |- quiet (match ?x with _ => _ end) => destruct x
  | |- quiet _ => solve [auto with quiet]
  end.

Lemma quiet_get_marathon_url : quiet get_marathon_url.
Proof. unfold get_marathon_url. repeat quiet_step. Qed.

Lemma quiet_get_marathon_app app_id : quiet (get_marathon_app app_id).
Proof.
  unfold get_marathon_app. apply quiet_bind; [apply quiet_get_marathon_url|].
  intros ?. repeat quiet_step.
Qed.

Lemma quiet_wait_for_deployment fuel id :
  forall sum, quiet (wait_for_deployment fuel id sum).
Proof.
  induction fuel as [|fuel IH]; intros sum; cbn [wait_for_deployment];
    [apply quiet_out_of_fuel|].
  apply quiet_bind; [by apply quiet_emit|]. intros _.
  apply quiet_bind; [apply quiet_get_marathon_url|]. intros ?.
  apply quiet_bind; [apply quiet_requests_get_deployments|]. intros ?.
  destruct (_ >? _); [apply quiet_raise|].
  destruct (existsb _ _); [apply IH | apply quiet_ret].
Qed.

Lemma quiet_update_marathon_app fuel app_id env secrets :
  quiet (update_marathon_app fuel app_id env secrets).
Proof.
  unfold update_marathon_app.
  apply quiet_bind; [apply quiet_get_marathon_url|]. intros ?.
  apply quiet_bind; [apply quiet_requests_patch|]. intros ?.
  destruct (negb _); [apply quiet_raise|].
  destruct (_ !! _); [apply quiet_wait_for_deployment | apply quiet_raise].
Qed.

Lemma quiet_get_domains : quiet get_domains.
Proof.
  unfold get_domains. apply quiet_bind; [apply quiet_getenv|]. intros ?.
  apply quiet_bind; [apply quiet_get_marathon_app|]. intros ?.
  repeat quiet_step.
Qed.

Lemma quiet_generate_letsencrypt_cert domains :
  quiet (generate_letsencrypt_cert domains).
Proof.
  unfold generate_letsencrypt_cert, read_domains_from_last_time,
    write_domains_to_file.
  do 4 (apply quiet_bind; [repeat quiet_step|]; intros ?).
  apply quiet_bind; [intros w; apply quiet_subprocess_run|]. intros ?.
  repeat quiet_step.
Qed.

Lemma quiet_upload_cert_to_marathon_lb fuel cert_filename :
  quiet (upload_cert_to_marathon_lb fuel cert_filename).
Proof.
  unfold upload_cert_to_marathon_lb.
  apply quiet_bind; [apply quiet_read_file|]. intros ?.
  apply quiet_bind; [apply quiet_getenv|]. intros ?.
  apply quiet_bind; [apply quiet_get_marathon_app|]. intros ?.
  destruct (bool_decide _);
    [apply quiet_update_marathon_app | apply quiet_ret].
Qed.

Lemma quiet_run_client fuel : quiet (run_client fuel).
Proof.
  unfold run_client. apply quiet_bind; [apply quiet_get_domains|].
  intros [domains|]; [|apply quiet_raise].
  apply quiet_bind; [apply quiet_generate_letsencrypt_cert|]. intros ?.
  apply quiet_upload_cert_to_marathon_lb.
Qed.

Lemma backoff_loop_gives_up attempts fuel b s w e :
  fst (run_client fuel w) = Raised e ->
  60 * 60 <= s ->
  backoff_loop (S attempts) fuel b s w
  = (Raised e, snd (run_client fuel w)).
Proof.
  intros Hfail Hs. cbn [backoff_loop]. unfold try_except.
  destruct (run_client fuel w) as [r w1]. cbn [fst snd] in *. subst r.
  destruct (Z.geb_spec s (60 * 60)); [done | lia].
Qed.

Lemma backoff_loop_retries attempts fuel b s w e :
  fst (run_client fuel w) = Raised e ->
  s < 60 * 60 ->
  backoff_loop (S attempts) fuel b s w
  = backoff_loop attempts fuel (b * 2) (s + b)
                 (slept b (snd (run_client fuel w))).
Proof.
  intros Hfail Hs. cbn [backoff_loop]. unfold try_except.
  destruct (run_client fuel w) as [r w1]. cbn [fst snd] in *. subst r.
  destruct (Z.geb_spec s (60 * 60)); [lia | done].
Qed.

(** When the attempts of the run fail and the iterations suffice, the
    loop sleeps as [schedule] says and then raises the exception of the
    attempt it made last. *)
Lemma backoff_loop_all_fail fuel :
  forall attempts b s w,
    (length (schedule attempts b s) < attempts)%nat ->
    (forall i, (i <= length (schedule attempts b s))%nat ->
       exists e, fst (run_client fuel (attempt_world fuel i b w)) = Raised e) ->
    exists e,
      fst (run_client fuel
             (attempt_world fuel (length (schedule attempts b s)) b w))
      = Raised e /\
      backoff_loop attempts fuel b s w
      = (Raised e,
         snd (run_client fuel
                (attempt_world fuel (length (schedule attempts b s)) b w)))
      /\
      backoff_sleeps
        (trace (snd (run_client fuel
                       (attempt_world fuel
                          (length (schedule attempts b s)) b w))))
      = backoff_sleeps (trace w) ++ schedule attempts b s.
Proof.
  induction attempts as [|attempts IH]; intros b s w Hlen Hfails;
    [cbn in Hlen; lia|].
  destruct (Hfails 0%nat ltac:(lia)) as [e He]. cbn [attempt_world] in He.
  cbn [schedule] in *.
  destruct (Z.geb_spec s (60 * 60)) as [Hs|Hs].
  - exists e. cbn [length attempt_world]. split; [exact He|].
    split; [by apply backoff_loop_gives_up|].
    by rewrite quiet_run_client, app_nil_r.
  - cbn [length] in Hlen, Hfails |- *. cbn [attempt_world].
    destruct (IH (b * 2) (s + b) (slept b (snd (run_client fuel w))))
      as (e' & He' & Hloop & Hsleeps); [lia| |].
    { intros i Hi. apply (Hfails (S i)). lia. }
    exists e'. split; [exact He'|].
    split; [by rewrite (backoff_loop_retries _ _ _ _ _ e)|].
    rewrite Hsleeps. cbn [slept trace].
    rewrite backoff_sleeps_app, quiet_run_client. cbn [backoff_sleeps].
    by rewrite <- app_assoc.
Qed.

(** C4, as the code has it: when every attempt of the run fails, the
    wrapper sleeps 30 seconds before the second attempt and twice the
    previous time before each later one, and it tests the budget before
    it adds the next sleep: it re-raises at the first failure that
    finds the time slept so far at 3600 seconds or more.  That is the
    eighth attempt, after sleeps of 30, 60, 120, 240, 480, 960 and 1920
    seconds, 3810 seconds in all; the exception raised is the one of
    that eighth attempt.  The attempts of the run are those made in the
    worlds [attempt_world fuel i 30 w] for [i] from 0 to 7. *)
Theorem backoff_all_attempts_fail attempts fuel w :
  (forall i, (i < 8)%nat ->
     exists e, fst (run_client fuel (attempt_world fuel i 30 w)) = Raised e) ->
  (8 <= attempts)%nat ->
  exists e,
    fst (run_client fuel (attempt_world fuel 7 30 w)) = Raised e /\
    run_client_with_backoff attempts fuel w
    = (Raised e, snd (run_client fuel (attempt_world fuel 7 30 w))) /\
    backoff_sleeps (trace (snd (run_client fuel (attempt_world fuel 7 30 w))))
    = backoff_sleeps (trace w) ++ [30; 60; 120; 240; 480; 960; 1920] /\
    total_backoff (trace (snd (run_client fuel (attempt_world fuel 7 30 w))))
    = total_backoff (trace w) + 3810.
Proof.
  intros Hfails Hattempts.
  assert (Hsched : schedule attempts 30 0
                   = [30; 60; 120; 240; 480; 960; 1920]).
  { do 8 (destruct attempts as [|attempts]; [lia|]). reflexivity. }
  destruct (backoff_loop_all_fail fuel attempts 30 0 w)
    as (e & He & Hloop & Hsleeps).
  { rewrite Hsched. cbn [length]. lia. }
  { rewrite Hsched. cbn [length]. intros i Hi. apply Hfails. lia. }
  rewrite Hsched in He, Hloop, Hsleeps. cbn [length] in He, Hloop, Hsleeps.
  exists e.
  split; [exact He|]. split; [exact Hloop|]. split; [exact Hsleeps|].
  unfold total_backoff. rewrite Hsleeps, foldr_app. cbn [foldr].
  generalize (backoff_sleeps (trace w)). intros l.
  induction l as [|x l IHl]; cbn [foldr]; lia.
Qed.

End Backoff.

Lemma unreachable_always_fails fuel (w : world unreachable) :
  fst (run_client fuel w) = Raised (Exception MSG_GET_FAILED).
Proof.
  unfold run_client, bind. by rewrite get_domains_spec.
Qed.

Lemma backoff_all_attempts_fail_witness :
  exists e,
    fst (run_client 61 (attempt_world 61 7 30 fresh_world)) = Raised e /\
    run_client_with_backoff 8 61 fresh_world
    = (Raised e, snd (run_client 61 (attempt_world 61 7 30 fresh_world))) /\
    backoff_sleeps
      (trace (snd (run_client 61 (attempt_world 61 7 30 fresh_world))))
    = backoff_sleeps (trace fresh_world)
      ++ [30; 60; 120; 240; 480; 960; 1920] /\
    total_backoff
      (trace (snd (run_client 61 (attempt_world 61 7 30 fresh_world))))
    = total_backoff (trace fresh_world) + 3810.
Proof.
  apply (backoff_all_attempts_fail 8 61 fresh_world).
  - intros i Hi.
    do 8 (destruct i as [|i]; [eexists; vm_compute; reflexivity|]). lia.
  - lia.
Defined.

(** C4 as stated fails: with Marathon unreachable every attempt fails;
    after six sleeps the wrapper has slept 1890 seconds, the next sleep
    of 1920 seconds takes the total past 3600, and the wrapper sleeps
    it all the same: it has slept 3810 seconds when it gives up. *)
Lemma backoff_sleeps_past_budget :
  let r := run_client_with_backoff 8 61 unreachable_world in
  fst r = Raised (Exception MSG_GET_FAILED) /\
  backoff_sleeps (trace (snd r)) = [30; 60; 120; 240; 480; 960; 1920] /\
  total_backoff (trace (snd r)) = 3810 /\
  ~ total_backoff (trace (snd r)) <= 60 * 60.
Proof. vm_compute. repeat split; try reflexivity. intros H. by apply H. Qed.

(** ** Further properties of the script *)

(** *** Domain names and certificate paths *)

Lemma has_char_replace_self a b s :
  a <> b -> has_char a (PyStr.replace a b s) = false.
Proof.
  intros Hab. induction s as [|c s IH]; [done|].
  cbn [PyStr.replace has_char]. rewrite IH, orb_false_r.
  destruct (Ascii.eqb_spec c a) as [->|Hca].
  - apply Ascii.eqb_neq. congruence.
  - by apply Ascii.eqb_neq.
Qed.

Lemma length_replace a b s :
  String.length (PyStr.replace a b s) = String.length s.
Proof. induction s as [|c s IH]; [done|]. cbn. by rewrite IH. Qed.

(** X1: [get_cert_filepath] names the file after the domain.  When the
    domain starts with an asterisk every asterisk in it is replaced, so
    the name has none and is as long as the domain; when it does not,
    the name is the domain unchanged, asterisks further on included. *)
Theorem get_cert_filepath_name (domain_name : string) :
  exists name,
    get_cert_filepath domain_name
    = CERTIFICATES_DIR +:+ "/" +:+ name +:+ ".pem" /\
    String.length name = String.length domain_name /\
    (PyStr.startswith "*" domain_name = true ->
     name = PyStr.replace "*" "_" domain_name /\ has_char "*" name = false) /\
    (PyStr.startswith "*" domain_name = false -> name = domain_name).
Proof.
  unfold get_cert_filepath.
  destruct (PyStr.startswith "*" domain_name) eqn:Hstar.
  - exists (PyStr.replace "*" "_" domain_name).
    split; [done|]. split; [apply length_replace|].
    split; [|done]. intros _. split; [done|].
    by apply has_char_replace_self.
  - by exists domain_name.
Qed.

Lemma get_cert_filepath_name_witness :
  get_cert_filepath "*.ex*mple.com"
  = ".lego/certificates//_.ex_mple.com.pem" /\
  get_cert_filepath "a*.example.com"
  = ".lego/certificates//a*.example.com.pem".
Proof.
  split.
  - destruct (get_cert_filepath_name "*.ex*mple.com")
      as (name & Hpath & _ & Hstar & _).
    destruct (Hstar eq_refl) as [-> _]. exact Hpath.
  - destruct (get_cert_filepath_name "a*.example.com")
      as (name & Hpath & _ & _ & Hplain).
    rewrite (Hplain eq_refl) in Hpath. exact Hpath.
Defined.

(** X2: [get_cert_filepath] does not tell a wildcard domain from the
    name with underscores in place of the asterisks: the two different
    domains get the same certificate path. *)
Theorem get_cert_filepath_collision (domain_name : string) :
  PyStr.startswith "*" domain_name = true ->
  PyStr.replace "*" "_" domain_name <> domain_name /\
  get_cert_filepath (PyStr.replace "*" "_" domain_name)
  = get_cert_filepath domain_name.
Proof.
  intros Hstar. destruct domain_name as [|c s]; [done|].
  cbn [PyStr.startswith] in Hstar.
  destruct (Ascii.eqb_spec "*" c) as [<-|]; [|done].
  split; [by intros [=]|]. reflexivity.
Qed.

Lemma get_cert_filepath_collision_witness :
  get_cert_filepath "_.example.com" = get_cert_filepath "*.example.com".
Proof. apply (get_cert_filepath_collision "*.example.com" eq_refl). Defined.

Lemma split_cons_hd sep c s :
  Ascii.eqb c sep = false ->
  hd "" (PyStr.split sep (String c s))
  = String c (hd "" (PyStr.split sep s)).
Proof.
  intros Hc. cbn [PyStr.split]. rewrite Hc.
  pose proof (split_nonempty sep s) as Hne.
  by destruct (PyStr.split sep s).
Qed.

(** X3: the first entry, which names the certificate, is the text of the
    DomainSet before its first comma: it has no comma, and what follows
    it in the DomainSet is nothing or begins with a comma. *)
Theorem first_domain_is_prefix (domains : string) :
  exists rest,
    domains = first_domain domains +:+ rest /\
    has_char "," (first_domain domains) = false /\
    (rest = "" \/ PyStr.startswith "," rest = true).
Proof.
  unfold first_domain. induction domains as [|c s IH].
  - exists "". by split; [|split; [|left]].
  - destruct (Ascii.eqb c ",") eqn:Hc.
    + exists (String c s). cbn [PyStr.split hd]. rewrite Hc. cbn [hd].
      split; [done|]. split; [done|]. right.
      cbn [PyStr.startswith]. by rewrite Ascii.eqb_sym, Hc.
    + destruct IH as (rest & Hd & Hno & Hrest). exists rest.
      rewrite split_cons_hd by done.
      split.
      { change (String c s
                = String c (hd "" (PyStr.split "," s) +:+ rest)).
        by f_equal. }
      split; [cbn [has_char]; by rewrite Hc, Hno | exact Hrest].
Qed.


(** *** Issuing *)

Section IssuerMore.

Context {X : externals}.
Implicit Types (w : world X).

Lemma mapM_id_map_Some (l : list string) : mapM id (map Some l) = Some l.
Proof.
  apply mapM_Some_2. induction l; constructor; done.
Qed.

Lemma lego_argv_with_email w domains email :
  environ w !! ENV_LETSENCRYPT_EMAIL = Some email ->
  mapM id (lego_argv w domains) = Some (lego_command w domains email).
Proof.
  intros Hemail.
  assert (Heq : lego_argv w domains
                = map Some (lego_command w domains email)).
  { unfold lego_argv, lego_command, DEFAULT_LEGO_ARGS, challenge_args.
    rewrite Hemail. cbn [app map]. do 8 f_equal.
    destruct (String.eqb _ "http"); [by rewrite <- app_assoc|].
    destruct (String.eqb _ "dns"); [by rewrite <- !app_assoc|done]. }
  rewrite Heq. apply mapM_id_map_Some.
Qed.

Lemma lego_argv_without_email w domains :
  environ w !! ENV_LETSENCRYPT_EMAIL = None ->
  mapM id (lego_argv w domains) = None.
Proof.
  intros Hemail. apply mapM_None_2. unfold lego_argv, DEFAULT_LEGO_ARGS.
  rewrite Hemail. cbn [app]. do 4 apply Exists_cons_tl. by apply Exists_cons_hd.
Qed.

Lemma generate_with_email domains email w :
  environ w !! ENV_LETSENCRYPT_EMAIL = Some email ->
  generate_letsencrypt_cert domains w
  = if negb (fst (lego X (lego_command w domains email) (files w)) =? 0)%Z
    then (Raised (Exception MSG_LEGO_FAILED),
          after_lego w (lego_command w domains email))
    else (Returned (first_domain domains),
          issued w domains (lego_command w domains email)).
Proof.
  intros Hemail.
  by rewrite generate_letsencrypt_cert_spec,
    (lego_argv_with_email _ _ _ Hemail).
Qed.


(** X5: without [LETSENCRYPT_EMAIL] the command line has a [None] in
    it: [generate_letsencrypt_cert] raises a [TypeError] and leaves the
    world as it was: [lego] is not started and the state file is not
    written. *)
Theorem generate_without_email domains w :
  environ w !! ENV_LETSENCRYPT_EMAIL = None ->
  generate_letsencrypt_cert domains w = (Raised TypeError, w).
Proof.
  intros Hemail.
  by rewrite generate_letsencrypt_cert_spec,
    (lego_argv_without_email _ _ Hemail).
Qed.


(** X7: a successful issuance decides the next one.  In the world
    [generate_letsencrypt_cert] leaves when it returns, the state file
    holds the DomainSet just issued, and the next run reads it with its
    newlines translated.  So the next issuance of a DomainSet other
    than that text selects [run]; the next issuance of the same
    DomainSet selects [renew] exactly when the [.crt] file of its first
    entry exists, provided the DomainSet has no carriage return; and a
    DomainSet with a carriage return selects [run] again. *)
Theorem issuance_decides_next domains first w :
  fst (generate_letsencrypt_cert domains w) = Returned first ->
  let w' := snd (generate_letsencrypt_cert domains w) in
  first = first_domain domains /\
  files w' !! DOMAINS_FILE = Some domains /\
  last_domains w' = PyStr.universal_newlines domains /\
  (forall other, other <> PyStr.universal_newlines domains ->
     issuance_mode w' other = Run) /\
  (has_char PyStr.CR domains = false ->
   (issuance_mode w' domains = Renew
    <-> is_Some (files w' !! norm_path
                   (crt_filepath (first_domain domains))))) /\
  (has_char PyStr.CR domains = true -> issuance_mode w' domains = Run).
Proof.
  rewrite generate_letsencrypt_cert_spec.
  destruct (mapM id (lego_argv w domains)) as [args|]; [|done].
  cbn zeta. destruct (negb _); [done|]. cbn [fst snd].
  intros [= <-]. split; [done|].
  split; [cbn [files]; apply lookup_insert_eq|].
  assert (Hlast : last_domains
                    (World (environ w)
                       (<[DOMAINS_FILE := domains]> (lego X args (files w)).2)
                       (marathon w)
                       (trace w ++ [EvRun args (lego X args (files w)).1;
                                    EvWrite DOMAINS_FILE domains]))
                  = PyStr.universal_newlines domains).
  { unfold last_domains. cbn [files]. by rewrite lookup_insert_eq. }
  split; [exact Hlast|]. split; [|split].
  - intros other Hother. apply issuance_mode_run_iff.
    rewrite Hlast. by intros [? _].
  - intros Hplain.
    rewrite issuance_mode_renew_iff, Hlast,
      (universal_newlines_plain domains Hplain).
    split; [by intros [_ ?]|done].
  - intros Hcr. apply issuance_mode_run_iff. rewrite Hlast.
    intros [Heq _].
    pose proof (universal_newlines_no_CR domains) as Hno.
    rewrite <- Heq in Hno. congruence.
Qed.

End IssuerMore.


Lemma generate_without_email_witness :
  generate_letsencrypt_cert "a.example.com" fresh_world
  = (Raised TypeError, fresh_world).
Proof. apply (generate_without_email "a.example.com" fresh_world eq_refl). Defined.


Lemma issuance_decides_next_witness :
  last_domains (snd (generate_letsencrypt_cert "a.example.com"
                       passing_issue_world)) = "a.example.com" /\
  issuance_mode (snd (generate_letsencrypt_cert cr_domains
                        passing_issue_world)) cr_domains = Run.
Proof.
  split.
  - destruct (issuance_decides_next "a.example.com" "a.example.com"
                passing_issue_world eq_refl) as (_ & _ & Hlast & _).
    exact Hlast.
  - destruct (issuance_decides_next cr_domains (first_domain cr_domains)
                passing_issue_world eq_refl) as (_ & _ & _ & _ & _ & Hcr).
    apply Hcr. reflexivity.
Defined.

(** *** Waiting for the deployment *)

Lemma waited_app t1 t2 : waited (t1 ++ t2) = waited t1 + waited t2.
Proof.
  induction t1 as [|e t1 IH]; [done|].
  destruct e as [| |[] ?| |]; cbn [app waited]; rewrite IH; lia.
Qed.

Section DeploymentMore.

Context {X : externals}.
Implicit Types (w : world X).

Lemma waited_poll_once w :
  waited (trace (poll_once w)) = waited (trace w) + 5.
Proof. cbn [poll_once trace]. rewrite waited_app. cbn [waited]. lia. Qed.

Lemma waited_after_polls n :
  forall w, waited (trace (after_polls n w))
            = waited (trace w) + 5 * Z.of_nat n.
Proof.
  induction n as [|n IH]; intros w; cbn [after_polls]; [lia|].
  rewrite IH, waited_poll_once. lia.
Qed.

Lemma waited_after_patch w app_id env secrets :
  waited (trace (after_patch w app_id env secrets)) = waited (trace w).
Proof. cbn [after_patch trace]. rewrite waited_app. cbn [waited]. lia. Qed.

(** The loop never waits past the poll that takes the waiting time
    beyond 300 seconds. *)
Lemma wait_for_deployment_bounded id :
  forall fuel sum w,
    sum <= 300 ->
    waited (trace w)
    <= waited (trace (snd (wait_for_deployment fuel id sum w)))
    <= waited (trace w) + (305 - sum).
Proof.
  induction fuel as [|fuel IH]; intros sum w Hsum;
    [cbn [wait_for_deployment out_of_fuel snd]; lia|].
  rewrite wait_for_deployment_step.
  destruct (Z.gtb_spec (sum + 5) 300) as [Hgt|Hle];
    [cbn [snd]; rewrite waited_poll_once; lia|].
  destruct (in_flight id w); [|cbn [snd]; rewrite waited_poll_once; lia].
  specialize (IH (sum + 5) (poll_once w) Hle).
  rewrite waited_poll_once in IH. lia.
Qed.

(** A PATCH that Marathon rejects ends [update_marathon_app] at
    once: it raises its update exception in the world the PATCH left,
    without a single poll of the deployment list. *)
Lemma update_rejected fuel app_id env secrets w :
  patch_ok (patch_answer w app_id env secrets) = false ->
  update_marathon_app fuel app_id env secrets w
  = (Raised (Exception MSG_UPDATE_FAILED), after_patch w app_id env secrets).
Proof. intros Hok. by rewrite update_marathon_app_spec, Hok. Qed.

(** X8: when the PATCH is accepted as deployment [id], the polls
    numbered 1 to [n] show [id] and poll [n + 1] does not, with
    [n < 60], then [update_marathon_app] returns at that poll, after
    [n + 1] polls and [5 * (n + 1)] seconds of waiting. *)
Theorem update_completes fuel app_id env secrets w id (n : nat) :
  patch_ok (patch_answer w app_id env secrets) = true ->
  patch_json (patch_answer w app_id env secrets) !! "deploymentId"
  = Some id ->
  (n < 60)%nat -> (n < fuel)%nat ->
  (forall i, (i < n)%nat ->
     in_flight id (after_polls i (after_patch w app_id env secrets)) = true) ->
  in_flight id (after_polls n (after_patch w app_id env secrets)) = false ->
  update_marathon_app fuel app_id env secrets w
  = (Returned tt, after_polls (S n) (after_patch w app_id env secrets)) /\
  waited (trace (after_polls (S n) (after_patch w app_id env secrets)))
  = waited (trace w) + 5 * (Z.of_nat n + 1).
Proof.
  intros Hok Hid Hn Hfuel Hbusy Hgone. split.
  - rewrite update_marathon_app_spec, Hok, Hid.
    apply wait_for_deployment_returns; [done | lia | done | done].
  - rewrite waited_after_polls, waited_after_patch. lia.
Qed.

(** X9: when the PATCH is accepted as deployment [id] and the first
    sixty polls all show [id], [update_marathon_app] raises the timeout
    exception at the sixty-first poll, after 305 seconds of waiting,
    without regard to what that poll shows. *)
Theorem update_times_out fuel app_id env secrets w id :
  patch_ok (patch_answer w app_id env secrets) = true ->
  patch_json (patch_answer w app_id env secrets) !! "deploymentId"
  = Some id ->
  (60 < fuel)%nat ->
  (forall i, (i < 60)%nat ->
     in_flight id (after_polls i (after_patch w app_id env secrets)) = true) ->
  update_marathon_app fuel app_id env secrets w
  = (Raised (Exception MSG_TIMEOUT),
     after_polls 61 (after_patch w app_id env secrets)) /\
  waited (trace (after_polls 61 (after_patch w app_id env secrets)))
  = waited (trace w) + 305.
Proof.
  intros Hok Hid Hfuel Hbusy. split.
  - rewrite update_marathon_app_spec, Hok, Hid.
    apply (wait_for_deployment_times_out id 60); [done | lia | done].
  - rewrite waited_after_polls, waited_after_patch. lia.
Qed.

(** X10: [update_marathon_app] always ends within 61 polls: with that
    many iterations allowed it returns or raises whatever Marathon
    answers, and it has then slept at most 305 seconds between polls. *)
Theorem update_wait_is_bounded fuel app_id env secrets w :
  (61 <= fuel)%nat ->
  fst (update_marathon_app fuel app_id env secrets w) <> OutOfFuel /\
  waited (trace w)
  <= waited (trace (snd (update_marathon_app fuel app_id env secrets w)))
  <= waited (trace w) + 305.
Proof.
  intros Hfuel. rewrite update_marathon_app_spec.
  pose proof (waited_after_patch w app_id env secrets) as Hpatch.
  destruct (patch_ok _); [|cbn [fst snd]; split; [done | lia]].
  destruct (patch_json _ !! "deploymentId") as [id|];
    [|cbn [fst snd]; split; [done | lia]].
  split.
  - apply wait_for_deployment_terminates. lia.
  - pose proof (wait_for_deployment_bounded id fuel 0
                  (after_patch w app_id env secrets)) as Hb.
    lia.
Qed.

End DeploymentMore.

Lemma update_completes_witness :
  fst (update_marathon_app 61 (Some "lb") ∅ ∅ three_polls_world)
  = Returned tt /\
  waited (trace (snd (update_marathon_app 61 (Some "lb") ∅ ∅
                        three_polls_world))) = 15.
Proof.
  destruct (update_completes 61 (Some "lb") ∅ ∅ three_polls_world "d1" 2
              eq_refl eq_refl ltac:(lia) ltac:(lia))
    as [Hrun Hwaited].
  { intros i Hi. destruct i as [|[|i]]; [reflexivity | reflexivity | lia]. }
  { reflexivity. }
  rewrite Hrun. split; [reflexivity|]. exact Hwaited.
Defined.

Lemma update_times_out_witness :
  fst (update_marathon_app 61 (Some "lb") ∅ ∅ late_world)
  = Raised (Exception MSG_TIMEOUT).
Proof.
  destruct (update_times_out 61 (Some "lb") ∅ ∅ late_world "d1"
              eq_refl eq_refl ltac:(lia))
    as [Hrun _].
  { intros i Hi.
    assert (Hall : forallb (fun i => in_flight "d1"
                               (after_polls i (after_patch late_world
                                                 (Some "lb") ∅ ∅)))
                           (seq 0 60) = true) by (vm_compute; reflexivity).
    rewrite forallb_forall in Hall. apply Hall, in_seq. lia. }
  by rewrite Hrun.
Defined.

Lemma update_wait_is_bounded_witness :
  fst (update_marathon_app 61 (Some "lb") ∅ ∅ late_world) <> OutOfFuel.
Proof.
  by destruct (update_wait_is_bounded 61 (Some "lb") ∅ ∅ late_world
                 ltac:(lia)) as [H _].
Defined.

(** *** Publishing *)

Lemma patches_app t1 t2 : patches (t1 ++ t2) = patches t1 ++ patches t2.
Proof.
  induction t1 as [|e t1 IH]; [done|].
  destruct e; cbn [app patches]; by rewrite IH.
Qed.

Section PublishMore.

Context {X : externals}.
Implicit Types (w : world X).

(** The waiting loop sends no PATCH. *)
Lemma wait_for_deployment_patches id :
  forall fuel sum w,
    patches (trace (snd (wait_for_deployment fuel id sum w)))
    = patches (trace w).
Proof.
  assert (Hpoll : forall w, patches (trace (poll_once w)) = patches (trace w)).
  { intros w. cbn [poll_once trace].
    by rewrite patches_app, app_nil_r. }
  induction fuel as [|fuel IH]; intros sum w; [done|].
  rewrite wait_for_deployment_step.
  destruct (_ >? _); [apply Hpoll|].
  destruct (in_flight id w); [|apply Hpoll].
  by rewrite IH.
Qed.

Lemma update_marathon_app_patches fuel app_id env secrets w :
  patches (trace (snd (update_marathon_app fuel app_id env secrets w)))
  = patches (trace w)
    ++ [(app_url w app_id,
         {| body_id := app_id; body_env := env; body_secrets := secrets |})].
Proof.
  assert (Hpatch : patches (trace (after_patch w app_id env secrets))
                   = patches (trace w)
                     ++ [(app_url w app_id,
                          {| body_id := app_id; body_env := env;
                             body_secrets := secrets |})]).
  { cbn [after_patch trace]. by rewrite patches_app. }
  rewrite update_marathon_app_spec.
  destruct (patch_ok _); [|exact Hpatch].
  destruct (_ !! "deploymentId"); [|exact Hpatch].
  by rewrite wait_for_deployment_patches.
Qed.

(** When the certificate file is missing,
    [upload_cert_to_marathon_lb] raises [FileNotFoundError] before it
    has sent anything: the world is left as it was. *)
Lemma upload_without_certificate_file fuel cert_filename w :
  files w !! norm_path cert_filename = None ->
  upload_cert_to_marathon_lb fuel cert_filename w
  = (Raised (FileNotFoundError cert_filename), w).
Proof. intros Hfile. by rewrite upload_cert_to_marathon_lb_spec, Hfile. Qed.

(** X11: when the certificate on disk, as it is read in text mode,
    differs from the one Marathon holds, the upload sends exactly one
    PATCH, to the load balancer's app.  Its body carries the app id,
    the [env] Marathon answered with the certificate variable set to
    the text read (the file content with its newlines translated) and
    every other variable as it was, and the [secrets] Marathon answered
    (none when the answer has no [secrets]). *)
Theorem upload_patches_once fuel cert_filename content w :
  files w !! norm_path cert_filename = Some content ->
  app_ok (get_answer w (lb_id w)) = true ->
  default (EnvStr "")
          (env (app_json (get_answer w (lb_id w))) !! HAPROXY_SSL_CERT)
  <> EnvStr (PyStr.universal_newlines content) ->
  exists body,
    patches (trace (snd (upload_cert_to_marathon_lb fuel cert_filename w)))
    = patches (trace w) ++ [(app_url w (lb_id w), body)] /\
    body_id body = lb_id w /\
    body_env body !! HAPROXY_SSL_CERT
    = Some (EnvStr (PyStr.universal_newlines content)) /\
    (forall name, name <> HAPROXY_SSL_CERT ->
       body_env body !! name
       = env (app_json (get_answer w (lb_id w))) !! name) /\
    body_secrets body
    = default ∅ (secrets (app_json (get_answer w (lb_id w)))).
Proof.
  intros Hfile Hok Hdiff.
  rewrite upload_cert_to_marathon_lb_spec, Hfile, Hok. cbn zeta.
  rewrite bool_decide_eq_true_2 by done.
  rewrite update_marathon_app_patches.
  eexists. split.
  - cbn [after_get trace]. rewrite patches_app, app_nil_r.
    reflexivity.
  - cbn [body_id body_env body_secrets].
    split; [done|]. split; [apply lookup_insert_eq|].
    split; [|done]. intros name Hname. by rewrite lookup_insert_ne.
Qed.

(** X12: a missing certificate variable counts as the empty string:
    when the certificate file is empty and the [env] Marathon answers
    has no [HAPROXY_SSL_CERT], the upload returns after the GET and
    sends no PATCH. *)
Theorem upload_empty_certificate fuel cert_filename w :
  files w !! norm_path cert_filename = Some "" ->
  app_ok (get_answer w (lb_id w)) = true ->
  env (app_json (get_answer w (lb_id w))) !! HAPROXY_SSL_CERT = None ->
  upload_cert_to_marathon_lb fuel cert_filename w
  = (Returned tt, after_get w (lb_id w)).
Proof.
  intros Hfile Hok Hnone.
  rewrite upload_cert_to_marathon_lb_spec, Hfile, Hok. cbn zeta.
  rewrite Hnone. cbn [default PyStr.universal_newlines].
  by rewrite bool_decide_eq_false_2 by (intros H; by apply H).
Qed.

End PublishMore.

Lemma upload_patches_once_witness :
  (exists body,
     patches (trace (snd (upload_cert_to_marathon_lb 61 pem_file
                            busy_lb_world)))
     = [(lb_url, body)] /\
     body_env body !! "TOKEN" = Some (EnvSecret "secret0") /\
     body_secrets body = {[ "secret0" := "lb/token" ]}) /\
  (exists body,
     patches (trace (snd (upload_cert_to_marathon_lb 61 pem_file
                            crlf_world)))
     = [(lb_url, body)] /\
     body_env body !! HAPROXY_SSL_CERT
     = Some (EnvStr ("CERTIFICATE" +:+ String PyStr.LF "KEY"))).
Proof.
  split.
  - destruct (upload_patches_once 61 pem_file "NEW" busy_lb_world
                eq_refl eq_refl ltac:(vm_compute; congruence))
      as (body & Hpatches & _ & _ & Hother & Hsecrets).
    exists body. split; [exact Hpatches|]. split.
    + rewrite Hother by done. reflexivity.
    + rewrite Hsecrets. reflexivity.
  - destruct (upload_patches_once 61 pem_file crlf_cert crlf_world
                eq_refl eq_refl ltac:(vm_compute; congruence))
      as (body & Hpatches & _ & Hcert & _).
    exists body. split; [exact Hpatches | exact Hcert].
Defined.

Lemma upload_empty_certificate_witness :
  trace (snd (upload_cert_to_marathon_lb 61 pem_file empty_cert_world))
  = [EvGet lb_url].
Proof.
  by rewrite (upload_empty_certificate 61 pem_file empty_cert_world
                eq_refl eq_refl eq_refl).
Defined.

(** *** One run of the client *)

Section RunMore.

Context {X : externals}.
Implicit Types (w : world X).

Lemma get_domains_world w r w1 :
  get_domains w = (r, w1) -> w1 = after_get w (own_app_id w).
Proof.
  rewrite get_domains_spec.
  destruct (app_ok _); [|by intros [= _ <-]].
  destruct (String.eqb _ "http").
  - destruct (labels _ !! _); by intros [= _ <-].
  - destruct (String.eqb _ "dns"); by intros [= _ <-].
Qed.

Lemma run_client_resolved fuel w w1 domains :
  get_domains w = (Returned (Some domains), w1) ->
  run_client fuel w
  = match generate_letsencrypt_cert domains w1 with
    | (Returned domain_name, w2) =>
        upload_cert_to_marathon_lb fuel (get_cert_filepath domain_name) w2
    | (Raised e, w2) => (Raised e, w2)
    | (OutOfFuel, w2) => (OutOfFuel, w2)
    end.
Proof. intros Hget. unfold run_client. unfold bind at 1. by rewrite Hget. Qed.

(** X13: when the GET of this app's definition fails, the run ends
    there in every verification mode, dns included, where the definition
    would not be used: [run_client] raises the exception of the failed
    GET, and the GET is all it has done. *)
Theorem run_needs_marathon fuel w :
  app_ok (get_answer w (own_app_id w)) = false ->
  run_client fuel w
  = (Raised (Exception MSG_GET_FAILED), after_get w (own_app_id w)).
Proof.
  intros Hok. unfold run_client. unfold bind at 1.
  by rewrite get_domains_spec, Hok.
Qed.

(** X14: a configuration that names no domains ends the run after the
    GET of the app definition, before [lego] is started: in http mode
    without the VHOST label [run_client] raises [KeyError], in dns mode
    without [DOMAINS] it raises [TypeError], and with any other method
    it raises the unknown-method exception. *)
Theorem run_without_domains fuel w :
  app_ok (get_answer w (own_app_id w)) = true ->
  (verification_method w = "http" ->
   labels (app_json (get_answer w (own_app_id w))) !! "HAPROXY_0_VHOST"
   = None ->
   run_client fuel w
   = (Raised (KeyError "HAPROXY_0_VHOST"), after_get w (own_app_id w))) /\
  (verification_method w = "dns" ->
   environ w !! ENV_DOMAINS = None ->
   run_client fuel w = (Raised TypeError, after_get w (own_app_id w))) /\
  (verification_method w <> "http" ->
   verification_method w <> "dns" ->
   run_client fuel w
   = (Raised (Exception (MSG_UNKNOWN_METHOD +:+ verification_method w)),
      after_get w (own_app_id w))).
Proof.
  intros Hok. unfold run_client. unfold bind at 1 3 5.
  rewrite get_domains_spec, Hok.
  split; [|split].
  - intros -> Hlabel. cbn [String.eqb Ascii.eqb Bool.eqb]. by rewrite Hlabel.
  - intros -> Hdomains. cbn [String.eqb Ascii.eqb Bool.eqb].
    by rewrite Hdomains.
  - intros Hhttp Hdns.
    apply String.eqb_neq in Hhttp, Hdns. by rewrite Hhttp, Hdns.
Qed.

(** X15: when [lego] exits nonzero the run ends there: [run_client]
    raises the issuance exception in the world [lego] left, so the load
    balancer is neither read nor patched. *)
Theorem failed_issuance_leaves_lb_alone fuel w w1 domains email :
  get_domains w = (Returned (Some domains), w1) ->
  environ w1 !! ENV_LETSENCRYPT_EMAIL = Some email ->
  fst (lego X (lego_command w1 domains email) (files w1)) <> 0 ->
  run_client fuel w
  = (Raised (Exception MSG_LEGO_FAILED),
     after_lego w1 (lego_command w1 domains email)) /\
  trace (after_lego w1 (lego_command w1 domains email))
  = trace w ++ [EvGet (app_url w (own_app_id w));
                EvRun (lego_command w1 domains email)
                      (fst (lego X (lego_command w1 domains email)
                              (files w1)))].
Proof.
  intros Hget Hemail Hrc. split.
  - rewrite (run_client_resolved _ _ _ _ Hget),
      (generate_with_email _ _ _ Hemail).
    apply Z.eqb_neq in Hrc. by rewrite Hrc.
  - apply get_domains_world in Hget. cbn [after_lego trace].
    rewrite Hget at 1. cbn [after_get trace]. by rewrite <- app_assoc.
Qed.

(** X16: the state file is written before the certificate is read.
    When [lego] exits with 0 and the [.pem] file of the first entry does
    not exist, [run_client] raises [FileNotFoundError] without a request
    to the load balancer, and the state file already holds the new
    DomainSet. *)
Theorem missing_certificate_after_issuance fuel w w1 domains email :
  get_domains w = (Returned (Some domains), w1) ->
  environ w1 !! ENV_LETSENCRYPT_EMAIL = Some email ->
  fst (lego X (lego_command w1 domains email) (files w1)) = 0 ->
  files (issued w1 domains (lego_command w1 domains email))
    !! norm_path (get_cert_filepath (first_domain domains)) = None ->
  run_client fuel w
  = (Raised (FileNotFoundError (get_cert_filepath (first_domain domains))),
     issued w1 domains (lego_command w1 domains email)) /\
  files (issued w1 domains (lego_command w1 domains email)) !! DOMAINS_FILE
  = Some domains.
Proof.
  intros Hget Hemail Hrc Hpem. split.
  - rewrite (run_client_resolved _ _ _ _ Hget),
      (generate_with_email _ _ _ Hemail), Hrc.
    cbn [Z.eqb negb].
    by rewrite upload_cert_to_marathon_lb_spec, Hpem.
  - cbn [issued files]. apply lookup_insert_eq.
Qed.

(** X17: a run that finds nothing changed writes nothing to Marathon.
    When [lego] exits with 0 and the load balancer already holds the
    text of the [.pem] file of the first entry as it is read (the file
    content with its newlines translated), [run_client] returns after
    the GET of the load balancer's app: the trace has no PATCH that was
    not there before. *)
Theorem unchanged_certificate_is_not_published
    fuel w w1 domains email content :
  get_domains w = (Returned (Some domains), w1) ->
  environ w1 !! ENV_LETSENCRYPT_EMAIL = Some email ->
  fst (lego X (lego_command w1 domains email) (files w1)) = 0 ->
  let w2 := issued w1 domains (lego_command w1 domains email) in
  files w2 !! norm_path (get_cert_filepath (first_domain domains))
  = Some content ->
  app_ok (get_answer w2 (lb_id w2)) = true ->
  env (app_json (get_answer w2 (lb_id w2))) !! HAPROXY_SSL_CERT
  = Some (EnvStr (PyStr.universal_newlines content)) ->
  run_client fuel w = (Returned tt, after_get w2 (lb_id w2)) /\
  patches (trace (after_get w2 (lb_id w2))) = patches (trace w).
Proof.
  intros Hget Hemail Hrc w2 Hpem Hok Hcert. split.
  - rewrite (run_client_resolved _ _ _ _ Hget),
      (generate_with_email _ _ _ Hemail), Hrc.
    cbn [Z.eqb negb]. fold w2.
    rewrite upload_cert_to_marathon_lb_spec, Hpem, Hok. cbn zeta.
    rewrite Hcert. cbn [default].
    by rewrite bool_decide_eq_false_2 by (intros H; by apply H).
  - apply get_domains_world in Hget. subst w2.
    cbn [after_get issued trace]. rewrite !patches_app. cbn [patches].
    rewrite !app_nil_r. rewrite Hget. cbn [after_get trace].
    by rewrite patches_app, app_nil_r.
Qed.

Lemma update_marathon_app_terminates fuel app_id env secrets w :
  (61 <= fuel)%nat ->
  fst (update_marathon_app fuel app_id env secrets w) <> OutOfFuel.
Proof.
  intros Hfuel. rewrite update_marathon_app_spec.
  destruct (patch_ok _); [|done].
  destruct (_ !! "deploymentId"); [|done].
  apply wait_for_deployment_terminates. lia.
Qed.

(** Sixty-one iterations of the waiting loop are enough for a run. *)
Lemma run_client_terminates fuel w :
  (61 <= fuel)%nat -> fst (run_client fuel w) <> OutOfFuel.
Proof.
  intros Hfuel. unfold run_client. unfold bind at 1.
  destruct (get_domains w) as [[[domains|]| |] w1] eqn:Hget; try done.
  - unfold bind at 1. rewrite generate_letsencrypt_cert_spec.
    destruct (mapM id _); [|done]. cbn zeta.
    destruct (negb _); [done|].
    rewrite upload_cert_to_marathon_lb_spec.
    destruct (_ !! norm_path _); [|done].
    destruct (app_ok _); [|done]. cbn zeta.
    destruct (bool_decide _); [|done].
    by apply update_marathon_app_terminates.
  - revert Hget. rewrite get_domains_spec.
    destruct (app_ok _); [|done].
    destruct (String.eqb _ "http"); [by destruct (labels _ !! _)|].
    by destruct (String.eqb _ "dns").
Qed.

End RunMore.

Lemma run_needs_marathon_witness :
  fst (run_client 61 unreachable_world) = Raised (Exception MSG_GET_FAILED).
Proof. by rewrite (run_needs_marathon 61 unreachable_world eq_refl). Defined.

Lemma run_without_domains_witness :
  fst (run_client 61 (unconfigured_world "http"))
  = Raised (KeyError "HAPROXY_0_VHOST") /\
  fst (run_client 61 (unconfigured_world "dns")) = Raised TypeError /\
  fst (run_client 61 (unconfigured_world "tls"))
  = Raised (Exception "Unknown verification method: tls").
Proof.
  split; [|split].
  - destruct (run_without_domains 61 (unconfigured_world "http") eq_refl)
      as (Hhttp & _ & _).
    by rewrite (Hhttp eq_refl eq_refl).
  - destruct (run_without_domains 61 (unconfigured_world "dns") eq_refl)
      as (_ & Hdns & _).
    by rewrite (Hdns eq_refl eq_refl).
  - destruct (run_without_domains 61 (unconfigured_world "tls") eq_refl)
      as (_ & _ & Hother).
    by rewrite (Hother ltac:(vm_compute; congruence)
                       ltac:(vm_compute; congruence)).
Defined.

Lemma failed_issuance_leaves_lb_alone_witness :
  fst (run_client 61 lego_fails_world) = Raised (Exception MSG_LEGO_FAILED) /\
  patches (trace (snd (run_client 61 lego_fails_world))) = [].
Proof.
  destruct (failed_issuance_leaves_lb_alone 61 lego_fails_world
              (after_get lego_fails_world (own_app_id lego_fails_world))
              "a.example.com" "admin@example.com"
              eq_refl eq_refl ltac:(vm_compute; congruence))
    as [Hrun Htrace].
  rewrite Hrun. cbn [fst snd]. split; [reflexivity|].
  rewrite Htrace. reflexivity.
Defined.

Lemma missing_certificate_after_issuance_witness :
  fst (run_client 61 no_pem_world)
  = Raised (FileNotFoundError ".lego/certificates//a.example.com.pem") /\
  files (snd (run_client 61 no_pem_world)) !! DOMAINS_FILE
  = Some "a.example.com".
Proof.
  destruct (missing_certificate_after_issuance 61 no_pem_world
              (after_get no_pem_world (own_app_id no_pem_world))
              "a.example.com" "admin@example.com"
              eq_refl eq_refl eq_refl eq_refl)
    as [Hrun Hstate].
  rewrite Hrun. cbn [fst snd]. split; [reflexivity | exact Hstate].
Defined.

Lemma unchanged_certificate_is_not_published_witness :
  fst (run_client 61 steady_world) = Returned tt /\
  patches (trace (snd (run_client 61 steady_world))) = [].
Proof.
  destruct (unchanged_certificate_is_not_published 61 steady_world
              (after_get steady_world (own_app_id steady_world))
              "a.example.com" "admin@example.com" "NEW"
              eq_refl eq_refl eq_refl eq_refl eq_refl eq_refl)
    as [Hrun Hpatches].
  rewrite Hrun. cbn [fst snd]. split; [reflexivity | exact Hpatches].
Defined.

(** *** The backoff loop in general *)

Section BackoffMore.

Context {X : externals}.
Implicit Types (w : world X).

(** What the loop does whatever the attempts do: it sleeps an initial
    part of [schedule]; when it raises it has slept all of it, and when
    it runs out of iterations the schedule is as long as the number of
    iterations. *)
Lemma backoff_loop_outcome fuel :
  (forall w, fst (run_client fuel w) <> OutOfFuel) ->
  forall attempts b s w,
    exists k : nat,
      backoff_sleeps (trace (snd (backoff_loop attempts fuel b s w)))
      = backoff_sleeps (trace w) ++ take k (schedule attempts b s) /\
      match fst (backoff_loop attempts fuel b s w) with
      | Returned _ => True
      | Raised _ => (length (schedule attempts b s) <= k)%nat
                    /\ (length (schedule attempts b s) < attempts)%nat
      | OutOfFuel => length (schedule attempts b s) = attempts
      end.
Proof.
  intros Hterm. induction attempts as [|attempts IH]; intros b s w.
  { exists 0%nat. cbn. by rewrite app_nil_r. }
  cbn [backoff_loop schedule]. unfold try_except.
  pose proof (quiet_run_client fuel w) as Hquiet.
  pose proof (Hterm w) as Hw.
  destruct (run_client fuel w) as [[[]|e|] w1]; cbn [fst snd] in *;
    [|clear Hw|done].
  - exists 0%nat. by rewrite take_0, app_nil_r.
  - destruct (Z.geb_spec s (60 * 60)) as [Hs|Hs].
    + exists 0%nat. cbn [raise fst snd take length].
      rewrite app_nil_r. split; [done|]. split; lia.
    + unfold bind, sleep, emit. cbn [fst snd].
      destruct (IH (b * 2) (s + b)
                  (World (environ w1) (files w1) (marathon w1)
                         (trace w1 ++ [EvSleep Backoff b])))
        as (k & Hsleeps & Hout).
      exists (S k). split.
      * rewrite Hsleeps. cbn [trace take].
        rewrite backoff_sleeps_app, Hquiet. cbn [backoff_sleeps].
        by rewrite <- app_assoc.
      * destruct (fst (backoff_loop attempts fuel (b * 2) (s + b) _));
          cbn [length]; [done | lia | lia].
Qed.

(** X18: the wrapper makes at most eight attempts: with eight or more
    iterations allowed it returns or raises whatever the attempts do,
    and the backoff sleeps it has added are the first [k] of 30, 60,
    120, 240, 480, 960, 1920 for some [k], at most 3810 seconds. *)
Theorem backoff_is_bounded attempts fuel w :
  (8 <= attempts)%nat -> (61 <= fuel)%nat ->
  fst (run_client_with_backoff attempts fuel w) <> OutOfFuel /\
  exists k : nat,
    backoff_sleeps (trace (snd (run_client_with_backoff attempts fuel w)))
    = backoff_sleeps (trace w)
      ++ take k [30; 60; 120; 240; 480; 960; 1920].
Proof.
  intros Hattempts Hfuel.
  assert (Hsched : schedule attempts 30 0
                   = [30; 60; 120; 240; 480; 960; 1920]).
  { do 8 (destruct attempts as [|attempts]; [lia|]). reflexivity. }
  destruct (backoff_loop_outcome fuel
              (fun w => run_client_terminates fuel w Hfuel) attempts 30 0 w)
    as (k & Hsleeps & Hout).
  rewrite Hsched in Hsleeps, Hout. unfold run_client_with_backoff.
  split; [|by exists k].
  intros Hoof. rewrite Hoof in Hout. cbn [length] in Hout. lia.
Qed.

(** X19: the wrapper never gives up early: whenever it raises, it has
    slept all of 30, 60, 120, 240, 480, 960 and 1920 seconds since it
    was started. *)
Theorem backoff_raises_after_full_schedule attempts fuel w e w' :
  (8 <= attempts)%nat -> (61 <= fuel)%nat ->
  run_client_with_backoff attempts fuel w = (Raised e, w') ->
  backoff_sleeps (trace w')
  = backoff_sleeps (trace w) ++ [30; 60; 120; 240; 480; 960; 1920].
Proof.
  intros Hattempts Hfuel Hrun.
  assert (Hsched : schedule attempts 30 0
                   = [30; 60; 120; 240; 480; 960; 1920]).
  { do 8 (destruct attempts as [|attempts]; [lia|]). reflexivity. }
  destruct (backoff_loop_outcome fuel
              (fun w => run_client_terminates fuel w Hfuel) attempts 30 0 w)
    as (k & Hsleeps & Hout).
  unfold run_client_with_backoff in Hrun.
  rewrite Hrun, Hsched in *. cbn [fst snd] in *.
  destruct Hout as [Hk _]. by rewrite take_ge in Hsleeps.
Qed.

End BackoffMore.

Lemma backoff_is_bounded_witness :
  fst (run_client_with_backoff 8 61 steady_world) <> OutOfFuel.
Proof.
  by destruct (backoff_is_bounded 8 61 steady_world ltac:(lia) ltac:(lia))
    as [H _].
Defined.

Lemma backoff_raises_after_full_schedule_witness :
  backoff_sleeps (trace (snd (run_client_with_backoff 8 61 unreachable_world)))
  = [30; 60; 120; 240; 480; 960; 1920].
Proof.
  apply (backoff_raises_after_full_schedule 8 61 unreachable_world
           (Exception MSG_GET_FAILED)
           (snd (run_client_with_backoff 8 61 unreachable_world))
           ltac:(lia) ltac:(lia)).
  vm_compute. reflexivity.
Defined.

(** *** The renewal rule and the source of the domains *)

Section RuleMore.

Context {X : externals}.
Implicit Types (w : world X).


(** Where the domains come from.  When the GET of this app's
    definition succeeds, [get_domains] returns the VHOST label in http
    mode, whatever [DOMAINS] holds, and the value of [DOMAINS] in dns
    mode, whatever the label holds ([None] when the variable is not
    set). *)
Lemma resolver_source w :
  app_ok (get_answer w (own_app_id w)) = true ->
  (verification_method w = "http" ->
   forall vhost,
     labels (app_json (get_answer w (own_app_id w))) !! "HAPROXY_0_VHOST"
     = Some vhost ->
     get_domains w = (Returned (Some vhost), after_get w (own_app_id w))) /\
  (verification_method w = "dns" ->
   get_domains w
   = (Returned (environ w !! ENV_DOMAINS), after_get w (own_app_id w))).
Proof.
  intros Hok. rewrite get_domains_spec, Hok. split.
  - intros -> vhost Hlabel. cbn [String.eqb Ascii.eqb Bool.eqb].
    by rewrite Hlabel.
  - by intros ->.
Qed.

End RuleMore.

